(** * AutoCertify: the batch certificate pipeline of [app.py]

    A shallow embedding of [fill_ppt], [ppt_to_images], [send_email] and the
    "Generate & Send Certificates" loop, with the properties of the pipeline
    stated over it.

    Conventions of the model.
    - A Python [str] is a [string]; [in] and [str.replace] are [PyStr.contains]
      and [PyStr.replace].
    - A roster row is what [row.to_dict()] yields after [pd.read_csv]: an
      insertion-ordered dictionary from column names to cells, kept as an
      association list because [data.items()] is iterated in order.  A cell
      is a string, an integer, a float, a boolean or NaN (the value pandas
      gives an empty field).
    - A presentation is slides of shapes of paragraphs of runs; what
      python-pptx keeps besides the text (run properties, paragraph
      properties, the XML of a shape without text frame) is carried as an
      uninterpreted string.
    - Files are keyed by the text of their path; PowerPoint, the SMTP server,
      [make_msgid], the file system's verdict on a save and the pandas
      version are the environment the pipeline is parameterised by.
    - Exceptions are the [Raise] results of an error monad; the effects a run
      has on the outside (files saved, folders rendered, messages sent, status
      and progress updates) are appended to a trace. *)

From Stdlib Require Import String Ascii ZArith DecimalString Lia.
From stdpp Require Import base option list gmap strings.

Open Scope string_scope.

(** ** Python strings *)

Module PyStr.

(** [p in s] *)
Fixpoint contains (p s : string) : bool :=
  String.prefix p s ||
  match s with
  | EmptyString => false
  | String _ s' => contains p s'
  end.

(** The scan of [str.replace] for a non-empty [old]: [skip] characters of a
    match just replaced are still to be dropped. *)
Fixpoint replace_from (old new : string) (skip : nat) (s : string) : string :=
  match s with
  | EmptyString => EmptyString
  | String c s' =>
      match skip with
      | S n => replace_from old new n s'
      | O =>
          if String.prefix old s
          then new +:+ replace_from old new (String.length old - 1) s'
          else String c (replace_from old new 0 s')
      end
  end.

(** With an empty [old] Python puts [new] around every character. *)
Fixpoint interleave (new s : string) : string :=
  match s with
  | EmptyString => new
  | String c s' => new +:+ String c (interleave new s')
  end.

(** [s.replace(old, new)]: every leftmost non-overlapping occurrence. *)
Definition replace (old new s : string) : string :=
  match old with
  | EmptyString => interleave new s
  | String _ _ => replace_from old new 0 s
  end.

(** [s[1:-1]] *)
Fixpoint drop_last (s : string) : string :=
  match s with
  | EmptyString => EmptyString
  | String c EmptyString => EmptyString
  | String c s' => String c (drop_last s')
  end.

Definition slice_1_m1 (s : string) : string :=
  match s with
  | EmptyString => EmptyString
  | String _ s' => drop_last s'
  end.

(** [str(n)] for a row index, and for an integer cell. *)
Definition of_nat (n : nat) : string := NilEmpty.string_of_uint (Nat.to_uint n).
Definition of_Z (z : Z) : string := NilZero.string_of_int (Z.to_int z).

(** Number of occurrences of a character, used to bound what a text can
    contain. *)
Fixpoint count (c : ascii) (s : string) : nat :=
  match s with
  | EmptyString => 0
  | String a s' => (if Ascii.eqb a c then 1 else 0) + count c s'
  end.

End PyStr.

(** ** Roster rows *)

(** A float other than NaN is kept as its text ([str(value)]) and whether it
    is zero. *)
Inductive cell :=
| CStr (s : string)
| CInt (z : Z)
| CNaN
| CFloat (text : string) (is_zero : bool)
| CBool (b : bool).

Definition row := list (string * cell).

(** [data.get(key)] *)
Fixpoint dict_get (key : string) (data : row) : option cell :=
  match data with
  | [] => None
  | (k, v) :: rest => if String.eqb k key then Some v else dict_get key rest
  end.

(** [pd.isna(value)] *)
Definition isna (v : cell) : bool :=
  match v with CNaN => true | _ => false end.

(** [str(value)] *)
Definition py_str (v : cell) : string :=
  match v with
  | CStr s => s
  | CInt z => PyStr.of_Z z
  | CNaN => "nan"
  | CFloat text _ => text
  | CBool b => if b then "True" else "False"
  end.

(** [str(x)] and [f"{x}"] for the result of [data.get]: [None] prints as
    ["None"]. *)
Definition py_str_opt (o : option cell) : string :=
  match o with
  | Some v => py_str v
  | None => "None"
  end.

(** Truth value of [if recipient:]; NaN is a non-zero float. *)
Definition truthy (o : option cell) : bool :=
  match o with
  | None => false
  | Some (CStr s) => negb (String.eqb s "")
  | Some (CInt z) => negb (Z.eqb z 0)
  | Some CNaN => true
  | Some (CFloat _ is_zero) => negb is_zero
  | Some (CBool b) => b
  end.

(** ** Presentations *)

Record run := Run { run_rPr : string; run_text : string }.

Record paragraph := Paragraph { par_pPr : string; par_runs : list run }.

Inductive shape :=
| TextShape (sp_xml : string) (paragraphs : list paragraph)
| OtherShape (sp_xml : string).

Definition has_text_frame (s : shape) : bool :=
  match s with TextShape _ _ => true | OtherShape _ => false end.

Record slide := Slide { slide_shapes : list shape }.

Record presentation := Presentation { slides : list slide }.

(** ** fill_ppt: the substitution *)

(** [f"{{{{{key}}}}}"] *)
Definition placeholder (key : string) : string := "{{" +:+ key +:+ "}}".

(** ["" if pd.isna(value) else str(value)] *)
Definition cell_text (v : cell) : string :=
  if isna v then "" else py_str v.

(** Body of [for key, value in data.items()] on one run. *)
Definition fill_run_item (r : run) (kv : string * cell) : run :=
  if PyStr.contains (placeholder kv.1) (run_text r)
  then Run (run_rPr r) (PyStr.replace (placeholder kv.1) (cell_text kv.2) (run_text r))
  else r.

Definition fill_run (data : row) (r : run) : run :=
  fold_left fill_run_item data r.

Definition fill_paragraph (data : row) (p : paragraph) : paragraph :=
  Paragraph (par_pPr p) (map (fill_run data) (par_runs p)).

Definition fill_shape (data : row) (s : shape) : shape :=
  match s with
  | TextShape x ps => TextShape x (map (fill_paragraph data) ps)
  | OtherShape x => OtherShape x
  end.

Definition fill_slide (data : row) (s : slide) : slide :=
  Slide (map (fill_shape data) (slide_shapes s)).

Definition fill_presentation (data : row) (prs : presentation) : presentation :=
  Presentation (map (fill_slide data) (slides prs)).

(** ** The outside world *)

(** A rendered slide image (the bytes of a PNG file). *)
Definition png := string.

(** An image file below an output folder: the folder and the slide's
    position in it. *)
Definition image_path := (string * nat)%type.

Record inline_image := InlineImage {
  img_data : png;
  img_cid : string;
  img_filename : string
}.

Record message := Message {
  msg_from : string;
  msg_to : string;
  msg_subject : string;
  msg_body : string;
  msg_html : string;
  msg_inline : option inline_image
}.

Inductive event :=
| EvStatus (text : string)
| EvSaved (path : string) (prs : presentation)
| EvRendered (ppt_path folder : string) (images : list png)
| EvSmtp (msg : message) (accepted : bool)
| EvProgress (done total : nat)
| EvTally (sent total : nat).

(** [decks]: the .pptx files by path; [folders]: the images of each output
    folder in slide order; [msgids]: how many message ids were drawn;
    [trace]: the effects so far, the latest first. *)
Record world := World {
  decks : gmap string presentation;
  folders : gmap string (list png);
  msgids : nat;
  trace : list event
}.

Definition log (e : event) (w : world) : world :=
  World (decks w) (folders w) (msgids w) (e :: trace w).

Definition write_deck (path : string) (prs : presentation) (w : world) : world :=
  World (<[path := prs]> (decks w)) (folders w) (msgids w) (trace w).

Definition set_folder (folder : string) (imgs : list png) (w : world) : world :=
  World (decks w) (<[folder := imgs]> (folders w)) (msgids w) (trace w).

Definition next_msgid (w : world) : world :=
  World (decks w) (folders w) (S (msgids w)) (trace w).

Definition folder_images (folder : string) (w : world) : list png :=
  default [] (folders w !! folder).

(** [Path.mkdir(parents=True, exist_ok=True)], where the folder can be
    made. *)
Definition mkdir (folder : string) (w : world) : world :=
  set_folder folder (folder_images folder w) w.

(** [Path / leaf], for a leaf that is a plain name.  Files are told apart by
    the text of their path: a leaf that holds a separator or a "."
    component, or two names that differ in case only, can be one file under
    two texts, which this key cannot tell; the properties that need two
    paths to be two files ask for plain names. *)
Definition path_join (dir leaf : string) : string := dir +:+ "/" +:+ leaf.

Inductive exn :=
| PackageNotFoundError (path : string)
| FileNotFoundError (path : string)
| COMError
| SMTPException.

Inductive result (A : Type) :=
| Ok (a : A) (w : world)
| Raise (e : exn) (w : world).
Arguments Ok {A} a w.
Arguments Raise {A} e w.

Definition M (A : Type) : Type := world -> result A.

Definition ret {A} (a : A) : M A := fun w => Ok a w.

Definition bind {A B} (m : M A) (f : A -> M B) : M B :=
  fun w => match m w with
           | Ok a w' => f a w'
           | Raise e w' => Raise e w'
           end.

Definition effect (f : world -> world) : M unit := fun w => Ok tt (f w).

Notation "'let!' x ':=' m 'in' k" := (bind m (fun x => k))
  (at level 10, x name, m at level 100, k at level 200).
Notation "'do!' m 'in' k" := (bind m (fun _ => k))
  (at level 10, m at level 100, k at level 200).

(** The environment of the pipeline: PowerPoint opening a deck and saving it
    as PNG ([None]: one of the automation calls fails), the SMTP server
    logging in and taking a message, [make_msgid], the images PowerPoint has
    written when an automation call fails ([Close] or [Quit] can fail after
    [SaveAs]), the exception of the file system when it refuses a save, and
    the text [astype(str)] makes of NaN ("nan" before pandas 3, none since:
    NaN stays NaN). *)
Record services := Services {
  powerpoint : string -> presentation -> option (list png);
  smtp_accepts : string -> string -> message -> bool;
  make_msgid : nat -> string;
  powerpoint_leftover : string -> presentation -> list png;
  prs_save : string -> option exn;
  nan_as_text : option string
}.

(** *** Paths a save cannot fail on *)

(** A path cut at its last "/": what is before and what is after. *)
Fixpoint split_last (path : string) : option (string * string) :=
  match path with
  | EmptyString => None
  | String c rest =>
      match split_last rest with
      | Some (dir, leaf) => Some (String c dir, leaf)
      | None => if Ascii.eqb c "/" then Some (EmptyString, rest) else None
      end
  end.

Definition is_alnum (c : ascii) : bool :=
  let n := nat_of_ascii c in
  Nat.leb 48 n && Nat.leb n 57 || Nat.leb 65 n && Nat.leb n 90
  || Nat.leb 97 n && Nat.leb n 122.

(** Characters every file system takes in a file name. *)
Definition portable_char (c : ascii) : bool :=
  is_alnum c || Ascii.eqb c "_" || Ascii.eqb c "-" || Ascii.eqb c ".".

Fixpoint all_portable (s : string) : bool :=
  match s with
  | EmptyString => true
  | String c rest => portable_char c && all_portable rest
  end.

(** A name in lower case: the file systems PowerPoint runs on take two
    names that differ in case only for the same file. *)
Definition lower_char (c : ascii) : ascii :=
  let n := nat_of_ascii c in
  if Nat.leb 65 n && Nat.leb n 90 then ascii_of_nat (n + 32) else c.

Fixpoint lower (s : string) : string :=
  match s with
  | EmptyString => EmptyString
  | String c rest => String (lower_char c) (lower rest)
  end.

(** A file name up to its first ".". *)
Fixpoint stem (s : string) : string :=
  match s with
  | EmptyString => EmptyString
  | String c rest => if Ascii.eqb c "." then EmptyString else String c (stem rest)
  end.

(** The device names Windows keeps for itself, with any extension. *)
Definition reserved_names : list string :=
  ["con"; "prn"; "aux"; "nul";
   "com1"; "com2"; "com3"; "com4"; "com5"; "com6"; "com7"; "com8"; "com9";
   "lpt1"; "lpt2"; "lpt3"; "lpt4"; "lpt5"; "lpt6"; "lpt7"; "lpt8"; "lpt9"].

Definition is_reserved (leaf : string) : bool :=
  existsb (String.eqb (lower (stem leaf))) reserved_names.

(** A file name of portable characters that starts with a letter, a digit
    or "_" and is no device name. *)
Definition legal_leaf (leaf : string) : bool :=
  match leaf with
  | EmptyString => false
  | String c rest => (is_alnum c || Ascii.eqb c "_") && all_portable rest
  end && negb (is_reserved leaf).

(** [output_ppt] lies beside [template_path], under a legal name: the
    directory is there, since the template is read from it, and the name is
    taken everywhere, so that the save goes through. *)
Definition surely_saved (template_path output_ppt : string) : bool :=
  match split_last template_path, split_last output_ppt with
  | Some (dir, _), Some (dir', leaf) => String.eqb dir dir' && legal_leaf leaf
  | _, _ => false
  end.

Section Pipeline.

Variable svc : services.

(** *** fill_ppt *)

(** The exception of [prs.save(output_ppt)], if any: beside the template
    under a legal name none, elsewhere as the file system decides. *)
Definition save_error (template_path output_ppt : string) : option exn :=
  if surely_saved template_path output_ppt then None else prs_save svc output_ppt.

Definition fill_ppt (template_path output_ppt : string) (data : row) : M unit :=
  fun w =>
    match decks w !! template_path with
    | None => Raise (PackageNotFoundError template_path) w
    | Some prs =>
        let prs' := fill_presentation data prs in
        match save_error template_path output_ppt with
        | Some e => Raise e w
        | None => Ok tt (log (EvSaved output_ppt prs') (write_deck output_ppt prs' w))
        end
    end.

(** *** ppt_to_images *)

(** [SaveAs(folder, 18)] writes one image per slide and leaves what else
    the folder holds. *)
Definition save_as (folder : string) (imgs : list png) (w : world) : world :=
  set_folder folder (imgs ++ drop (length imgs) (folder_images folder w)) w.

Definition ppt_to_images (ppt_path output_folder : string) : M unit :=
  fun w =>
    let w1 := mkdir output_folder w in
    match decks w1 !! ppt_path with
    | None => Raise (FileNotFoundError ppt_path) w1
    | Some prs =>
        match powerpoint svc ppt_path prs with
        | None =>
            Raise COMError
                  (save_as output_folder (powerpoint_leftover svc ppt_path prs) w1)
        | Some imgs =>
            Ok tt (log (EvRendered ppt_path output_folder imgs)
                       (save_as output_folder imgs w1))
        end
    end.

(** [list(folder.glob("*.PNG"))], listed here in the order of the slides;
    the order [glob] gives is the file system's. *)
Definition glob_png (folder : string) (w : world) : list image_path :=
  map (fun i => (folder, i)) (seq 0 (length (folder_images folder w))).

(** [open(path, "rb").read()] *)
Definition read_image (p : image_path) (w : world) : option png :=
  folders w !! p.1 ≫= (fun imgs => imgs !! p.2).

(** *** send_email *)

Definition dq : string := String (ascii_of_nat 34) EmptyString.
Definition nl : string := String (ascii_of_nat 10) EmptyString.

Definition html_content (name cid_inner : string) : string :=
  nl +:+ "    <html>" +:+ nl +:+
  "      <body style=" +:+ dq +:+ "font-family: Arial" +:+ dq +:+ ">" +:+ nl +:+
  "        <p>Dear <b>" +:+ name +:+ "</b>,</p>" +:+ nl +:+
  "        <p>Please find your certificate below:</p>" +:+ nl +:+
  "        <img src=" +:+ dq +:+ "cid:" +:+ cid_inner +:+ dq +:+
    " width=" +:+ dq +:+ "700" +:+ dq +:+ ">" +:+ nl +:+
  "        <p>Regards,<br>Event Team</p>" +:+ nl +:+
  "      </body>" +:+ nl +:+
  "    </html>" +:+ nl +:+
  "    ".

(** [with smtplib.SMTP_SSL(...) as server: login; send_message] *)
Definition deliver (sender password : string) (msg : message) : M unit :=
  fun w =>
    if smtp_accepts svc sender password msg
    then Ok tt (log (EvSmtp msg true) w)
    else Raise SMTPException (log (EvSmtp msg false) w).

Definition send_email (sender password : string) (recipient : cell)
    (subject body : string) (attachments : list image_path)
    (name : option cell) (event_name : string) : M unit :=
  fun w =>
    let cid := make_msgid svc (msgids w) in
    let w1 := next_msgid w in
    let compose :=
      Message sender (py_str recipient) subject body
              (html_content (py_str_opt name) (PyStr.slice_1_m1 cid)) in
    match attachments with
    | [] => deliver sender password (compose None) w1
    | first :: _ =>
        match read_image first w1 with
        | None => Raise (FileNotFoundError first.1) w1
        | Some img_data =>
            deliver sender password
              (compose (Some (InlineImage img_data cid (event_name +:+ ".png")))) w1
        end
    end.

(** *** The batch: "Generate & Send Certificates" *)

Record inputs := Inputs {
  event_name : string;
  ppt_file : option presentation;
  csv_file : option (list row);
  sender_email : string;
  sender_password : string;
  email_column : string
}.

Variable inp : inputs.
(** The directory [tempfile.TemporaryDirectory()] hands out. *)
Variable tmpdir : string.
(** [total = len(df)] *)
Variable total : nat.

Definition base_output : string :=
  path_join "output" (PyStr.replace " " "_" (event_name inp)).

Definition template_path : string := path_join tmpdir "template.pptx".

(** [str(data.get("NAME", f"user_{idx}")).replace(" ", "_")] *)
Definition display_name (idx : nat) (data : row) : string :=
  PyStr.replace " " "_"
    (match dict_get "NAME" data with
     | Some v => py_str v
     | None => "user_" +:+ PyStr.of_nat idx
     end).

Definition temp_ppt (idx : nat) (data : row) : string :=
  path_join tmpdir (display_name idx data +:+ ".pptx").

Definition person_out (idx : nat) (data : row) : string :=
  path_join base_output (display_name idx data).

Definition status_line (idx : nat) (data : row) : string :=
  "Processing " +:+ display_name idx data +:+ " (" +:+ PyStr.of_nat (idx + 1)
  +:+ "/" +:+ PyStr.of_nat total +:+ ")...".

(** [images = list(person_out.glob("*.PNG"))] *)
Definition glob (folder : string) : M (list image_path) :=
  fun w => Ok (glob_png folder w) w.

(** [recipient = data.get(email_column)] and the block under
    [if recipient:], from the sent count before to the sent count after. *)
Definition dispatch (data : row) (images : list image_path)
    (sent_count : nat) : M nat :=
  let recipient := dict_get (email_column inp) data in
  match recipient with
  | Some r =>
      if truthy recipient
      then
        do! send_email (sender_email inp) (sender_password inp) r
              (event_name inp +:+ " Certificate")
              ("Dear " +:+ py_str_opt (dict_get "NAME" data) +:+ ","
                 +:+ nl +:+ nl +:+ "Please find your certificate.")
              images (dict_get "NAME" data) (event_name inp) in
        ret (S sent_count)
      else ret sent_count
  | None => ret sent_count
  end.

(** One turn of [for idx, row in df.iterrows()].  The percentage shown by
    the progress bar is a floating-point value; the trace keeps the row
    count and the total it is computed from. *)
Definition process_row (idx : nat) (data : row) (sent_count : nat) : M nat :=
  do! effect (log (EvStatus (status_line idx data))) in
  do! fill_ppt template_path (temp_ppt idx data) data in
  do! ppt_to_images (temp_ppt idx data) (person_out idx data) in
  let! images := glob (person_out idx data) in
  let! sent_count' := dispatch data images sent_count in
  do! effect (log (EvProgress (idx + 1) total)) in
  ret sent_count'.

Inductive outcome :=
| Finished (sent_count : nat) (w : world)
| Aborted (idx : nat) (e : exn) (sent_count : nat) (w : world)
| Stopped (w : world).

(** The loop: an exception raised for a row leaves the loop, and the rows
    after it are not reached. *)
Fixpoint batch_loop (idx : nat) (rows : list row) (sent_count : nat)
    (w : world) : outcome :=
  match rows with
  | [] => Finished sent_count w
  | data :: rest =>
      match process_row idx data sent_count w with
      | Ok sent_count' w' => batch_loop (S idx) rest sent_count' w'
      | Raise e w' => Aborted idx e sent_count w'
      end
  end.

End Pipeline.

(** Leaving [with tempfile.TemporaryDirectory()] removes the directory and
    the decks in it. *)
Definition cleanup (tmpdir : string) (w : world) : world :=
  World (filter (fun kv => String.prefix (tmpdir +:+ "/") kv.1 = false) (decks w))
        (folders w) (msgids w) (trace w).

(** [all([event_name, ppt_file, csv_file, sender_email, sender_password])] *)
Definition all_fields (inp : inputs) : bool :=
  negb (String.eqb (event_name inp) "")
  && bool_decide (is_Some (ppt_file inp))
  && bool_decide (is_Some (csv_file inp))
  && negb (String.eqb (sender_email inp) "")
  && negb (String.eqb (sender_password inp) "").

(** The handler of the button: the guard, the template written to the
    temporary directory, the loop, the tally. *)
Definition generate_and_send (svc : services) (inp : inputs) (tmpdir : string)
    (w : world) : outcome :=
  match ppt_file inp, csv_file inp with
  | Some template, Some df =>
      if all_fields inp then
        let total := length df in
        let w1 := mkdir (base_output inp) w in
        let w2 := write_deck (template_path tmpdir) template w1 in
        match batch_loop svc inp tmpdir total 0 df 0 w2 with
        | Finished sent_count w3 =>
            Finished sent_count (log (EvTally sent_count total) (cleanup tmpdir w3))
        | Aborted idx e sent_count w3 => Aborted idx e sent_count (cleanup tmpdir w3)
        | Stopped w3 => Stopped w3
        end
      else Stopped w
  | _, _ => Stopped w
  end.

(** ** What a run shows: readings of the trace *)

Definition is_progress (e : event) : bool :=
  match e with EvProgress _ _ => true | _ => false end.

Definition is_accepted (e : event) : bool :=
  match e with EvSmtp _ true => true | _ => false end.

Definition is_smtp (e : event) : bool :=
  match e with EvSmtp _ _ => true | _ => false end.

(** Rows whose turn of the loop reached the progress update. *)
Definition rows_processed (w : world) : nat :=
  length (List.filter is_progress (trace w)).

(** Messages the SMTP server took. *)
Definition emails_sent (w : world) : nat :=
  length (List.filter is_accepted (trace w)).

(** Messages handed to the SMTP server, taken or not. *)
Definition send_attempts (w : world) : nat :=
  length (List.filter is_smtp (trace w)).

(** Paths of the decks saved, the latest first. *)
Definition saved_paths (w : world) : list string :=
  omap (fun e => match e with EvSaved path _ => Some path | _ => None end) (trace w).

(** Folders rendered into, the latest first. *)
Definition rendered_folders (w : world) : list string :=
  omap (fun e => match e with EvRendered _ folder _ => Some folder | _ => None end)
       (trace w).

(** The deck path and the output folder of each row, in roster order from
    row [idx] on. *)
Fixpoint row_decks (tmpdir : string) (idx : nat) (rows : list row)
    : list string :=
  match rows with
  | [] => []
  | data :: rest => temp_ppt tmpdir idx data :: row_decks tmpdir (S idx) rest
  end.

Fixpoint row_folders (inp : inputs) (idx : nat) (rows : list row) : list string :=
  match rows with
  | [] => []
  | data :: rest => person_out inp idx data :: row_folders inp (S idx) rest
  end.

(** What the rows save when every one of them is filled from [template]. *)
Fixpoint row_fills (tmpdir : string) (template : presentation) (idx : nat)
    (rows : list row) : list (string * presentation) :=
  match rows with
  | [] => []
  | data :: rest =>
      (temp_ppt tmpdir idx data, fill_presentation data template)
        :: row_fills tmpdir template (S idx) rest
  end.

(** Rows with a recipient the loop dispatches to. *)
Definition has_recipient (inp : inputs) (data : row) : bool :=
  truthy (dict_get (email_column inp) data).

(** The decks saved with their paths, the latest first. *)
Definition saved_decks (w : world) : list (string * presentation) :=
  omap (fun e => match e with EvSaved path prs => Some (path, prs) | _ => None end)
       (trace w).

(** The addressees of the messages the server took, the latest first. *)
Definition sent_to (w : world) : list string :=
  omap (fun e => match e with EvSmtp msg true => Some (msg_to msg) | _ => None end)
       (trace w).

Definition abort_of (o : outcome) : option (nat * exn) :=
  match o with
  | Aborted idx e _ _ => Some (idx, e)
  | _ => None
  end.

Definition sent_of (o : outcome) : option nat :=
  match o with
  | Finished sent_count _ => Some sent_count
  | _ => None
  end.

Definition world_of (o : outcome) : world :=
  match o with
  | Finished _ w => w
  | Aborted _ _ _ w => w
  | Stopped w => w
  end.

(** The tallies shown at the end of a batch, the latest first. *)
Definition tallies (w : world) : list (nat * nat) :=
  omap (fun e => match e with EvTally sent total => Some (sent, total) | _ => None end)
       (trace w).


(** ** Texts with placeholders *)

(** A run's text cut into literal pieces and placeholders. *)
Inductive token :=
| Lit (s : string)
| Ph (key : string).

Definition token_text (t : token) : string :=
  match t with
  | Lit s => s
  | Ph k => placeholder k
  end.

Fixpoint tokens_text (ts : list token) : string :=
  match ts with
  | [] => ""
  | t :: rest => token_text t +:+ tokens_text rest
  end.

(** The substitution as the specification words it: every placeholder whose
    key is a column gives way to the textual form of the row's value, an
    empty value to the empty string. *)
Definition subst_token (data : row) (t : token) : string :=
  match t with
  | Lit s => s
  | Ph k =>
      match dict_get k data with
      | Some v => cell_text v
      | None => placeholder k
      end
  end.

Fixpoint substituted (data : row) (ts : list token) : string :=
  match ts with
  | [] => ""
  | t :: rest => subst_token data t +:+ substituted data rest
  end.

Definition no_open (s : string) : Prop := PyStr.count "{" s = 0.

Definition brace_free (s : string) : Prop :=
  PyStr.count "{" s = 0 /\ PyStr.count "}" s = 0.

(** Literal pieces hold no opening brace, keys no brace at all. *)
Definition token_plain (t : token) : Prop :=
  match t with
  | Lit s => no_open s
  | Ph k => brace_free k
  end.

(** Column names hold no brace, and the texts put in no opening brace. *)
Definition item_plain (kv : string * cell) : Prop :=
  brace_free kv.1 /\ no_open (cell_text kv.2).


(** ** The runs of a presentation *)

Definition shape_runs (s : shape) : list run :=
  match s with
  | TextShape _ ps => List.concat (map par_runs ps)
  | OtherShape _ => []
  end.

Definition slide_runs (s : slide) : list run :=
  List.concat (map shape_runs (slide_shapes s)).

(** The runs the loops of [fill_ppt] visit, in visiting order. *)
Definition presentation_runs (prs : presentation) : list run :=
  List.concat (map slide_runs (slides prs)).

(** A presentation without the text of its runs: slides, shapes, paragraphs
    and runs in number and order, with all their properties. *)
Definition blank_run (r : run) : run := Run (run_rPr r) "".

Definition blank_paragraph (p : paragraph) : paragraph :=
  Paragraph (par_pPr p) (map blank_run (par_runs p)).

Definition blank_shape (s : shape) : shape :=
  match s with
  | TextShape x ps => TextShape x (map blank_paragraph ps)
  | OtherShape x => OtherShape x
  end.

Definition blank_slide (s : slide) : slide :=
  Slide (map blank_shape (slide_shapes s)).

Definition skeleton (prs : presentation) : presentation :=
  Presentation (map blank_slide (slides prs)).

(** The text of a run through the loop over [data.items()]. *)
Definition fill_text_item (t : string) (kv : string * cell) : string :=
  if PyStr.contains (placeholder kv.1) t
  then PyStr.replace (placeholder kv.1) (cell_text kv.2) t
  else t.

Definition fill_text (data : row) (t : string) : string :=
  fold_left fill_text_item data t.

(** One column applied to a cut text: its placeholders become literals. *)
Definition subst1 (k v : string) (t : token) : token :=
  match t with
  | Lit s => Lit s
  | Ph k' => if String.eqb k' k then Lit v else Ph k'
  end.

(** What the turn of row [idx] from [w] to [w'] has filled and rendered: the
    deck at the row's path has the slides, shapes, paragraphs and runs of
    the template read, each run filled from the row, and the row's folder
    holds the images PowerPoint made of that deck, before what it held
    beyond them. *)
Definition row_filled_and_rendered (svc : services) (inp : inputs)
    (tmpdir : string) (idx : nat) (data : row) (w w' : world) : Prop :=
  exists template deck imgs,
    decks w !! template_path tmpdir = Some template
    /\ decks w' !! temp_ppt tmpdir idx data = Some deck
    /\ skeleton deck = skeleton template
    /\ presentation_runs deck = map (fill_run data) (presentation_runs template)
    /\ powerpoint svc (temp_ppt tmpdir idx data) deck = Some imgs
    /\ folder_images (person_out inp idx data) w'
       = (imgs ++ drop (length imgs) (folder_images (person_out inp idx data) w))%list.

(** ** Sample inputs *)

Definition one_run_deck (rPr text : string) : presentation :=
  Presentation [Slide [TextShape "title" [Paragraph "ctr" [Run rPr text]]]].

Definition congrats_row : row := [("NAME", CStr "Ada"); ("TEAM", CStr "Core")].

Definition congrats_deck : presentation :=
  one_run_deck "bold" "Congrats {{NAME}} from {{TEAM}}".

Definition congrats_tokens : list token :=
  [Lit "Congrats "; Ph "NAME"; Lit " from "; Ph "TEAM"].

(** A row whose first value spells the placeholder of its second column. *)
Definition chained_row : row := [("A", CStr "{{B}}"); ("B", CStr "x")].

Definition name_deck : presentation := one_run_deck "bold" "Awarded to {{NAME}}".

Definition ada_row : row := [("NAME", CStr "Ada"); ("EMAIL", CStr "ada@example.com")].
Definition bob_row : row := [("NAME", CStr "Bob"); ("EMAIL", CStr "bob@example.com")].
Definition cy_row : row := [("NAME", CStr "Cy"); ("EMAIL", CStr "cy@example.com")].

(** Bob with the EMAIL field left empty in the CSV file. *)
Definition bob_blank_row : row := [("NAME", CStr "Bob"); ("EMAIL", CNaN)].

(** A recipient called "template". *)
Definition template_row : row :=
  [("NAME", CStr "template"); ("EMAIL", CStr "t@example.com")].



Definition demo_inputs : inputs :=
  Inputs "Tech Fest" (Some name_deck) (Some [ada_row; bob_row; cy_row])
         "team@example.com" "app-password" "EMAIL".

(** PowerPoint renders one image a slide, the server takes every message,
    the file system every save; pandas before version 3. *)
Definition accepting : services :=
  Services (fun _ prs => Some (map (fun _ => "PNG") (slides prs)))
           (fun _ _ _ => true)
           (fun n => "<" +:+ PyStr.of_nat n +:+ "@host>")
           (fun _ _ => [])
           (fun _ => None)
           (Some "nan").


(** As [accepting], but the server refuses a message addressed to "nan". *)
Definition refusing_nan : services :=
  Services (fun _ prs => Some (map (fun _ => "PNG") (slides prs)))
           (fun _ _ msg => negb (String.eqb (msg_to msg) "nan"))
           (fun n => "<" +:+ PyStr.of_nat n +:+ "@host>")
           (fun _ _ => [])
           (fun _ => None)
           (Some "nan").

(** As [accepting], but the file system refuses the save at [path]: its
    directory is not there. *)
Definition refusing_save (path : string) : services :=
  Services (fun _ prs => Some (map (fun _ => "PNG") (slides prs)))
           (fun _ _ _ => true)
           (fun n => "<" +:+ PyStr.of_nat n +:+ "@host>")
           (fun _ _ => [])
           (fun p => if String.eqb p path then Some (FileNotFoundError p) else None)
           (Some "nan").

(** A recipient whose name holds a path separator. *)
Definition slash_row : row := [("NAME", CStr "A/B"); ("EMAIL", CStr "ab@example.com")].

(** Nothing on disk but the template written to the temporary directory. *)
Definition start_world (tmpdir : string) (template : presentation) : world :=
  write_deck (template_path tmpdir) template (World ∅ ∅ 0 []).

(** ** Further readings used by the properties of the whole pipeline *)

(** The cut text after the substitution: the placeholders of columns have
    become literals. *)
Definition subst_tokens (data : row) (ts : list token) : list token :=
  map (fun t => match t with
                | Lit s => Lit s
                | Ph k => match dict_get k data with
                          | Some v => Lit (cell_text v)
                          | None => Ph k
                          end
                end) ts.

(** A run whose text is literal pieces without opening brace and
    placeholders of brace-free keys. *)
Definition tokenised (r : run) : Prop :=
  exists ts, Forall token_plain ts /\ run_text r = tokens_text ts.

(** ** The preview: "Generate Preview" *)

(** The text of the NAME value of a row, as [df["NAME"].astype(str)] has
    it; an empty NAME has the text the pandas version gives NaN, if any. *)
Definition row_name (svc : services) (data : row) : option string :=
  match dict_get "NAME" data with
  | Some CNaN => nan_as_text svc
  | Some v => Some (py_str v)
  | None => None
  end.

(** The texts among the options of the select box:
    [df["NAME"].astype(str).tolist()]. *)
Definition name_options (svc : services) (df : list row) : list string :=
  omap (row_name svc) df.

(** ["NAME" in df.columns], read off the rows of the frame. *)
Definition has_name_column (df : list row) : bool :=
  forallb (fun data => bool_decide (is_Some (dict_get "NAME" data))) df.

(** [df[df["NAME"].astype(str) == selected_name].iloc[0].to_dict()]: the first
    row of that name; [None] where [iloc[0]] raises IndexError. *)
Definition select_row (svc : services) (selected_name : string) (df : list row)
    : option row :=
  List.find (fun data => match row_name svc data with
                         | Some n => String.eqb n selected_name
                         | None => false
                         end) df.

(** What a click on the button ends in: an image shown with its caption,
    nothing shown, the IndexError of an empty selection, or an exception of
    the pipeline. *)
Inductive preview :=
| PreviewImage (image : png) (caption : string) (w : world)
| PreviewNothing (w : world)
| PreviewIndexError (w : world)
| PreviewRaised (e : exn) (w : world).

Definition in_dir (dir path : string) : bool := String.prefix (dir +:+ "/") path.

(** Leaving [with tempfile.TemporaryDirectory() as tmp]: the decks and the
    image folder below it are gone. *)
Definition cleanup_tmp (tmp : string) (w : world) : world :=
  World (filter (fun kv => in_dir tmp kv.1 = false) (decks w))
        (filter (fun kv => in_dir tmp kv.1 = false) (folders w))
        (msgids w) (trace w).

Definition generate_preview (svc : services) (inp : inputs)
    (selected_name tmp : string) (w : world) : preview :=
  match csv_file inp, ppt_file inp with
  | Some df, Some uploaded =>
      if has_name_column df then
        match select_row svc selected_name df with
        | None => PreviewIndexError w
        | Some data =>
            let template := path_join tmp "template.pptx" in
            let ppt_out := path_join tmp "preview.pptx" in
            let img_out := path_join tmp "images" in
            match (do! fill_ppt svc template ppt_out data in
                   do! ppt_to_images svc ppt_out img_out in
                   glob img_out) (write_deck template uploaded w) with
            | Raise e w' => PreviewRaised e (cleanup_tmp tmp w')
            | Ok images w' =>
                match images with
                | [] => PreviewNothing (cleanup_tmp tmp w')
                | first :: _ =>
                    match read_image first w' with
                    | Some img =>
                        PreviewImage img ("Preview for " +:+ selected_name)
                                     (cleanup_tmp tmp w')
                    | None => PreviewRaised (FileNotFoundError first.1) (cleanup_tmp tmp w')
                    end
                end
            end
        end
      else PreviewNothing w
  | _, _ => PreviewNothing w
  end.

Definition preview_world (p : preview) : world :=
  match p with
  | PreviewImage _ _ w => w
  | PreviewNothing w => w
  | PreviewIndexError w => w
  | PreviewRaised _ w => w
  end.

(** A temporary directory as [tempfile] hands it out: nothing below it. *)
Definition fresh_dir (tmp : string) (w : world) : Prop :=
  forall path, in_dir tmp path = true ->
               decks w !! path = None /\ folders w !! path = None.

(** Two worlds with the same files outside a directory. *)
Definition same_outside (dir : string) (w w' : world) : Prop :=
  forall path, in_dir dir path = false ->
               decks w' !! path = decks w !! path
               /\ folders w' !! path = folders w !! path.

(** A roster with two rows of the same name. *)
Definition ada_twice : list row :=
  [bob_row;
   [("NAME", CStr "Ada"); ("EMAIL", CStr "first@example.com")];
   [("NAME", CStr "Ada"); ("EMAIL", CStr "second@example.com")]].

(** * Properties *)

(** ** Python strings *)

Section StringFacts.

Lemma app_cons (x : ascii) (a b : string) : String x a +:+ b = String x (a +:+ b).
Proof. reflexivity. Qed.

Lemma app_nil_l_s (a : string) : "" +:+ a = a.
Proof. reflexivity. Qed.

Lemma app_assoc_s (a b c : string) : (a +:+ b) +:+ c = a +:+ (b +:+ c).
Proof.
  induction a as [|x a IH]; [reflexivity|].
  rewrite !app_cons. now rewrite IH.
Qed.

Lemma app_nil_r_s (a : string) : a +:+ "" = a.
Proof.
  induction a as [|x a IH]; [reflexivity|].
  rewrite app_cons. now rewrite IH.
Qed.

Lemma prefix_cons (a b : ascii) (p s : string) :
  String.prefix (String a p) (String b s)
  = if Ascii.eqb a b then String.prefix p s else false.
Proof.
  simpl. destruct (ascii_dec a b) as [->|Hne].
  - now rewrite Ascii.eqb_refl.
  - destruct (Ascii.eqb_spec a b); [contradiction | reflexivity].
Qed.

Lemma prefix_app (p s : string) : String.prefix p (p +:+ s) = true.
Proof.
  induction p as [|x p IH]; [now destruct s|].
  now rewrite app_cons, prefix_cons, Ascii.eqb_refl.
Qed.



Lemma count_app (c : ascii) (a b : string) :
  PyStr.count c (a +:+ b) = PyStr.count c a + PyStr.count c b.
Proof.
  induction a as [|x a IH]; [reflexivity|].
  rewrite app_cons. cbn [PyStr.count]. rewrite IH. lia.
Qed.


Lemma count_zero_head (c x : ascii) (s : string) :
  PyStr.count c (String x s) = 0 -> x <> c /\ PyStr.count c s = 0.
Proof.
  cbn [PyStr.count]. destruct (Ascii.eqb_spec x c); [lia|].
  intros H. split; [assumption | lia].
Qed.

(** *** The scan of [replace] *)

Lemma replace_from_skip (old new a s : string) :
  PyStr.replace_from old new (String.length a) (a +:+ s)
  = PyStr.replace_from old new 0 s.
Proof.
  induction a as [|x a IH]; [reflexivity|].
  rewrite app_cons. cbn [String.length PyStr.replace_from]. exact IH.
Qed.

Lemma replace_from_match (c : ascii) (o new s : string) :
  PyStr.replace_from (String c o) new 0 (String c o +:+ s)
  = new +:+ PyStr.replace_from (String c o) new 0 s.
Proof.
  pose proof (prefix_app (String c o) s) as Hp.
  rewrite app_cons in *. cbn [PyStr.replace_from]. rewrite Hp.
  replace (String.length (String c o) - 1) with (String.length o)
    by (cbn [String.length]; lia).
  now rewrite replace_from_skip.
Qed.

Lemma replace_from_step (old new : string) (x : ascii) (s : string) :
  String.prefix old (String x s) = false ->
  PyStr.replace_from old new 0 (String x s)
  = String x (PyStr.replace_from old new 0 s).
Proof. intros H. cbn [PyStr.replace_from]. now rewrite H. Qed.

(** Where the sought text is absent, [replace] changes nothing: the guard
    [if placeholder in run.text] only saves the assignment. *)
Lemma replace_from_absent (old new s : string) :
  PyStr.contains old s = false -> PyStr.replace_from old new 0 s = s.
Proof.
  induction s as [|x s IH]; [reflexivity|].
  cbn [PyStr.contains]. intros H. apply orb_false_iff in H as [Hp Hc].
  rewrite replace_from_step by assumption. now rewrite IH.
Qed.

(** A stretch without the first character of [old] is copied. *)
Lemma replace_from_copy (c : ascii) (o new a s : string) :
  PyStr.count c a = 0 ->
  PyStr.replace_from (String c o) new 0 (a +:+ s)
  = a +:+ PyStr.replace_from (String c o) new 0 s.
Proof.
  induction a as [|x a IH]; intros H; [reflexivity|].
  apply count_zero_head in H as [Hx Ha].
  rewrite !app_cons, replace_from_step.
  - now rewrite IH.
  - rewrite prefix_cons. destruct (Ascii.eqb_spec c x); [congruence | reflexivity].
Qed.

End StringFacts.

(** ** Placeholders in a text *)

Section PlaceholderFacts.

Lemma placeholder_unfold (k : string) :
  placeholder k = String "{" (String "{" (k +:+ "}}")).
Proof. reflexivity. Qed.

Lemma placeholder_app (k rest : string) :
  placeholder k +:+ rest = String "{" (String "{" (k +:+ "}}" +:+ rest)).
Proof. rewrite placeholder_unfold, !app_cons. now rewrite app_assoc_s. Qed.



(** Two keys without closing brace that agree up to the closing braces of
    the first are the same key. *)
Lemma key_prefix (k k' rest : string) :
  PyStr.count "}" k = 0 -> PyStr.count "}" k' = 0 ->
  String.prefix (k +:+ "}}") (k' +:+ "}}" +:+ rest) = true -> k = k'.
Proof.
  revert k'. induction k as [|x k IH]; intros [|y k'] Hk Hk' H.
  - reflexivity.
  - apply count_zero_head in Hk' as [Hy _].
    rewrite app_nil_l_s, app_cons in H.
    change "}}" with (String "}" "}") in H. rewrite prefix_cons in H.
    destruct (Ascii.eqb_spec "}" y); [congruence | discriminate].
  - apply count_zero_head in Hk as [Hx _].
    rewrite app_nil_l_s, !app_cons in H. rewrite prefix_cons in H.
    destruct (Ascii.eqb_spec x "}"); [congruence | discriminate].
  - apply count_zero_head in Hk as [_ Hk]. apply count_zero_head in Hk' as [_ Hk'].
    rewrite !app_cons, prefix_cons in H.
    destruct (Ascii.eqb_spec x y) as [->|]; [|discriminate].
    f_equal. now apply IH.
Qed.

Lemma placeholder_prefix (k k' rest : string) :
  brace_free k -> brace_free k' ->
  String.prefix (placeholder k) (placeholder k' +:+ rest) = true -> k = k'.
Proof.
  intros [_ Hk] [_ Hk'] H.
  rewrite placeholder_app, placeholder_unfold, !prefix_cons in H.
  cbn in H. eapply key_prefix; eassumption.
Qed.

(** What follows the braces of a placeholder does not start with an
    opening brace. *)
Lemma prefix_open_key (o k rest : string) :
  PyStr.count "{" k = 0 ->
  String.prefix (String "{" o) (k +:+ "}}" +:+ rest) = false.
Proof.
  intros Hk. destruct k as [|x k].
  - reflexivity.
  - apply count_zero_head in Hk as [Hx _].
    rewrite app_cons, prefix_cons.
    destruct (Ascii.eqb_spec "{" x); [congruence | reflexivity].
Qed.

(** The scan passes over the placeholder of another key. *)
Lemma replace_from_other (k k' v rest : string) :
  brace_free k -> brace_free k' -> k <> k' ->
  PyStr.replace_from (placeholder k) v 0 (placeholder k' +:+ rest)
  = placeholder k' +:+ PyStr.replace_from (placeholder k) v 0 rest.
Proof.
  intros Hk Hk' Hne.
  assert (String.prefix (placeholder k) (placeholder k' +:+ rest) = false) as H0.
  { destruct (String.prefix _ _) eqn:E; [|reflexivity].
    now apply placeholder_prefix in E. }
  rewrite placeholder_app in *.
  rewrite replace_from_step by exact H0.
  rewrite replace_from_step.
  - f_equal. f_equal. rewrite <- app_assoc_s.
    rewrite (placeholder_unfold k), replace_from_copy.
    + rewrite placeholder_app. now rewrite app_assoc_s.
    + rewrite count_app. destruct Hk' as [-> _]. reflexivity.
  - rewrite placeholder_unfold, prefix_cons. cbn [Ascii.eqb Bool.eqb].
    apply prefix_open_key. apply Hk'.
Qed.

Lemma subst1_plain (k v : string) (t : token) :
  no_open v -> token_plain t -> token_plain (subst1 k v t).
Proof.
  intros Hv Ht. destruct t as [s|k']; [exact Ht|].
  simpl. destruct (String.eqb k' k); [exact Hv | exact Ht].
Qed.

(** One column on a cut text: exactly its placeholders give way. *)
Lemma replace_tokens (k v : string) (ts : list token) :
  brace_free k -> Forall token_plain ts ->
  PyStr.replace_from (placeholder k) v 0 (tokens_text ts)
  = tokens_text (map (subst1 k v) ts).
Proof.
  intros Hk Hts. induction Hts as [|t ts Ht _ IH]; [reflexivity|].
  cbn [tokens_text map]. destruct t as [s|k'].
  - cbn [token_text subst1]. rewrite placeholder_unfold, replace_from_copy by exact Ht.
    f_equal. rewrite <- placeholder_unfold. exact IH.
  - cbn [token_text subst1]. destruct (String.eqb_spec k' k) as [->|Hne].
    + cbn [token_text]. rewrite <- IH.
      rewrite (placeholder_unfold k), app_cons. apply replace_from_match.
    + cbn [token_text]. rewrite replace_from_other by (try assumption; congruence).
      now rewrite IH.
Qed.

Lemma fill_text_item_replace (t k : string) (v : cell) :
  fill_text_item t (k, v) = PyStr.replace_from (placeholder k) (cell_text v) 0 t.
Proof.
  unfold fill_text_item. cbn [fst snd].
  destruct (PyStr.contains (placeholder k) t) eqn:E.
  - reflexivity.
  - now rewrite replace_from_absent.
Qed.

Lemma substituted_nil (ts : list token) : substituted [] ts = tokens_text ts.
Proof.
  induction ts as [|t ts IH]; [reflexivity|].
  cbn [substituted tokens_text]. rewrite IH. now destruct t.
Qed.

Lemma substituted_cons (k : string) (v : cell) (data : row) (ts : list token) :
  substituted ((k, v) :: data) ts
  = substituted data (map (subst1 k (cell_text v)) ts).
Proof.
  induction ts as [|t ts IH]; [reflexivity|].
  cbn [substituted map]. rewrite IH. f_equal.
  destruct t as [s|k']; [reflexivity|].
  cbn [subst_token subst1 dict_get].
  rewrite (String.eqb_sym k k'). now destruct (String.eqb k' k).
Qed.

(** The loop over the columns on a cut text. *)
Lemma fill_text_tokens (data : row) (ts : list token) :
  Forall item_plain data -> Forall token_plain ts ->
  fill_text data (tokens_text ts) = substituted data ts.
Proof.
  intros Hdata. revert ts.
  induction Hdata as [|[k v] data [Hk Hv] _ IH]; intros ts Hts.
  - now rewrite substituted_nil.
  - unfold fill_text in *. cbn [fold_left].
    rewrite fill_text_item_replace, replace_tokens by assumption.
    rewrite IH, substituted_cons; [reflexivity|].
    apply Forall_fmap. eapply Forall_impl; [exact Hts|].
    intros t Ht. now apply subst1_plain.
Qed.

End PlaceholderFacts.

(** ** fill_ppt on runs, paragraphs and presentations *)

Section FillFacts.

Lemma fill_run_item_text (r : run) (kv : string * cell) :
  fill_run_item r kv = Run (run_rPr r) (fill_text_item (run_text r) kv).
Proof.
  unfold fill_run_item, fill_text_item.
  destruct (PyStr.contains _ _); [reflexivity | now destruct r].
Qed.

(** The loop over the columns changes the text of the run and nothing else
    of it. *)
Lemma fill_run_text (data : row) (r : run) :
  fill_run data r = Run (run_rPr r) (fill_text data (run_text r)).
Proof.
  unfold fill_run, fill_text. revert r.
  induction data as [|kv data IH]; intros r; [now destruct r|].
  cbn [fold_left]. rewrite IH, fill_run_item_text. reflexivity.
Qed.

Lemma fill_run_rPr (data : row) (r : run) : run_rPr (fill_run data r) = run_rPr r.
Proof. now rewrite fill_run_text. Qed.

(** A run holding the placeholder of no column comes out as it went in. *)
Lemma fill_run_unchanged (data : row) (r : run) :
  (forall k v, (k, v) ∈ data -> PyStr.contains (placeholder k) (run_text r) = false) ->
  fill_run data r = r.
Proof.
  unfold fill_run. induction data as [|[k v] data IH]; intros H; [reflexivity|].
  cbn [fold_left]. unfold fill_run_item at 2. cbn [fst snd].
  rewrite (H k v) by apply list_elem_of_here.
  apply IH. intros k' v' Hin. apply (H k' v'). now apply list_elem_of_further.
Qed.

Lemma shape_runs_fill (data : row) (s : shape) :
  shape_runs (fill_shape data s) = map (fill_run data) (shape_runs s).
Proof.
  destruct s as [x ps|x]; [|reflexivity].
  cbn [fill_shape shape_runs]. rewrite concat_map, !map_map. reflexivity.
Qed.

Lemma slide_runs_fill (data : row) (s : slide) :
  slide_runs (fill_slide data s) = map (fill_run data) (slide_runs s).
Proof.
  unfold slide_runs, fill_slide. cbn [slide_shapes].
  rewrite concat_map, !map_map. f_equal.
  apply map_ext. intros sh. apply shape_runs_fill.
Qed.

(** The runs of the filled presentation are the runs of the template, each
    through the loop over the columns. *)
Lemma presentation_runs_fill (data : row) (prs : presentation) :
  presentation_runs (fill_presentation data prs)
  = map (fill_run data) (presentation_runs prs).
Proof.
  unfold presentation_runs, fill_presentation. cbn [slides].
  rewrite concat_map, !map_map. f_equal.
  apply map_ext. intros s. apply slide_runs_fill.
Qed.

Lemma blank_fill_run (data : row) (r : run) : blank_run (fill_run data r) = blank_run r.
Proof. unfold blank_run. now rewrite fill_run_rPr. Qed.

Lemma blank_fill_shape (data : row) (s : shape) :
  blank_shape (fill_shape data s) = blank_shape s.
Proof.
  destruct s as [x ps|x]; [|reflexivity].
  cbn [fill_shape blank_shape]. f_equal. rewrite map_map.
  apply map_ext. intros p. unfold blank_paragraph, fill_paragraph.
  cbn [par_pPr par_runs]. f_equal. rewrite map_map.
  apply map_ext. intros r. apply blank_fill_run.
Qed.

Lemma skeleton_fill (data : row) (prs : presentation) :
  skeleton (fill_presentation data prs) = skeleton prs.
Proof.
  unfold skeleton, fill_presentation. cbn [slides]. f_equal. rewrite map_map.
  apply map_ext. intros s. unfold blank_slide, fill_slide. cbn [slide_shapes].
  f_equal. rewrite map_map. apply map_ext. intros sh. apply blank_fill_shape.
Qed.

(** *** Texts too short of braces to hold a placeholder *)








(** *** A placeholder cut in two *)

Lemma length_app_s (a b : string) :
  String.length (a +:+ b) = String.length a + String.length b.
Proof.
  induction a as [|x a IH]; [reflexivity|].
  rewrite app_cons. cbn [String.length]. now rewrite IH.
Qed.















End FillFacts.


(** ** The substitution engine *)

Example replace_examples :
  PyStr.replace "aa" "b" "aaaaa" = "bba"
  /\ PyStr.replace " " "_" "Ada  Love lace" = "Ada__Love_lace"
  /\ PyStr.replace "" "-" "abc" = "-a-b-c-"
  /\ PyStr.slice_1_m1 "<id@host>" = "id@host"
  /\ PyStr.contains "{{A}}" "x{{A}}" = true
  /\ PyStr.contains "{{A}}" "x{{A}" = false.
Proof. repeat split; reflexivity. Qed.

(** An empty field comes out as the empty string, an integer in decimal, and
    a placeholder of no column stays. *)
Example fill_run_cells :
  fill_run [("NAME", CStr "Ada"); ("TEAM", CNaN); ("RANK", CInt 3)]
           (Run "bold" "{{NAME}}/{{TEAM}}/{{RANK}}/{{CITY}}")
  = Run "bold" "Ada//3/{{CITY}}".
Proof. reflexivity. Qed.

(** The order of the columns shows when a value spells a placeholder. *)
Example fill_run_column_order :
  fill_run [("A", CStr "{{B}}"); ("B", CStr "x")] (Run "" "{{A}}") = Run "" "x"
  /\ fill_run [("B", CStr "x"); ("A", CStr "{{B}}")] (Run "" "{{A}}") = Run "" "{{B}}".
Proof. split; reflexivity. Qed.

(** C3, as stated, fails: with the row [A = "{{B}}", B = "x"] the run
    ["{{A}}"] does not come out as the textual form of the value of [A]. The
    loop takes the columns one after another, so the text put in for [A] is
    itself searched for [{{B}}] and comes out as ["x"]. *)
Lemma fill_resubstitutes_values :
  presentation_runs (fill_presentation chained_row (one_run_deck "b" (tokens_text [Ph "A"]))) !! 0
  = Some (Run "b" "x")
  /\ substituted chained_row [Ph "A"] = "{{B}}"
  /\ presentation_runs (fill_presentation chained_row (one_run_deck "b" (tokens_text [Ph "A"]))) !! 0
     <> Some (Run "b" (substituted chained_row [Ph "A"])).
Proof. split; [reflexivity | split; [reflexivity | discriminate]]. Qed.

(** C3, amended: when no column name holds a brace and no text put in holds
    an opening brace, a run whose text is literal pieces (without opening
    brace) and placeholders comes out, in place and with its properties, with
    every placeholder of a column replaced by the textual form of the row's
    value, NaN by the empty string, and the other placeholders kept. *)
Theorem fill_substitutes_plain (data : row) (prs : presentation) (i : nat)
    (r : run) (ts : list token) :
  Forall item_plain data -> Forall token_plain ts ->
  presentation_runs prs !! i = Some r ->
  run_text r = tokens_text ts ->
  presentation_runs (fill_presentation data prs) !! i
  = Some (Run (run_rPr r) (substituted data ts)).
Proof.
  intros Hdata Hts Hi Ht.
  rewrite presentation_runs_fill, list_lookup_fmap, Hi. cbn [fmap option_fmap option_map].
  now rewrite fill_run_text, Ht, fill_text_tokens.
Qed.

(** The scenario of the specification: ["Congrats {{NAME}} from {{TEAM}}"]
    with [NAME = "Ada", TEAM = "Core"]. *)
Lemma fill_substitutes_congrats :
  presentation_runs (fill_presentation congrats_row congrats_deck) !! 0
  = Some (Run "bold" "Congrats Ada from Core").
Proof.
  refine (fill_substitutes_plain congrats_row congrats_deck 0
            (Run "bold" "Congrats {{NAME}} from {{TEAM}}") congrats_tokens
            _ _ eq_refl eq_refl).
  - repeat constructor.
  - repeat constructor.
Defined.

(** C4: [fill_ppt] keeps the slides, shapes, paragraphs and runs of the
    template in number and order with all their properties, changes nothing
    but the text of runs, and leaves as it is every run whose text holds the
    placeholder of no column of the row. *)
Theorem fill_keeps_run_structure (data : row) (prs : presentation) :
  skeleton (fill_presentation data prs) = skeleton prs
  /\ length (presentation_runs (fill_presentation data prs))
     = length (presentation_runs prs)
  /\ map run_rPr (presentation_runs (fill_presentation data prs))
     = map run_rPr (presentation_runs prs)
  /\ forall i r,
       presentation_runs prs !! i = Some r ->
       (forall k v, (k, v) ∈ data ->
                    PyStr.contains (placeholder k) (run_text r) = false) ->
       presentation_runs (fill_presentation data prs) !! i = Some r.
Proof.
  rewrite presentation_runs_fill. repeat split.
  - apply skeleton_fill.
  - apply length_map.
  - rewrite map_map. apply map_ext. intros r. apply fill_run_rPr.
  - intros i r Hi Hno. rewrite list_lookup_fmap, Hi. cbn.
    now rewrite fill_run_unchanged.
Qed.



(** ** Paths a save cannot fail on *)

Section PathFacts.

Lemma split_last_none (s : string) : PyStr.count "/" s = 0 -> split_last s = None.
Proof.
  induction s as [|c s IH]; [reflexivity|]. intros H.
  apply count_zero_head in H as [Hc Hs]. cbn [split_last]. rewrite IH by assumption.
  destruct (Ascii.eqb_spec c "/"); [contradiction | reflexivity].
Qed.

(** A path joined from a directory and a leaf without "/" is cut between
    the two. *)
Lemma split_last_join (dir leaf : string) :
  PyStr.count "/" leaf = 0 -> split_last (path_join dir leaf) = Some (dir, leaf).
Proof.
  intros H. unfold path_join. induction dir as [|c dir IH].
  - rewrite app_nil_l_s. change ("/" +:+ leaf) with (String "/" leaf).
    cbn [split_last]. now rewrite split_last_none.
  - rewrite app_cons. cbn [split_last]. now rewrite IH.
Qed.

Lemma all_portable_no_slash (s : string) :
  all_portable s = true -> PyStr.count "/" s = 0.
Proof.
  induction s as [|c s IH]; [reflexivity|]. cbn [all_portable PyStr.count].
  intros H. apply andb_true_iff in H as [Hc Hs]. rewrite IH by assumption.
  destruct (Ascii.eqb_spec c "/") as [->|]; [discriminate | reflexivity].
Qed.

Lemma legal_leaf_no_slash (s : string) : legal_leaf s = true -> PyStr.count "/" s = 0.
Proof.
  unfold legal_leaf. intros H. apply andb_true_iff in H as [H _].
  destruct s as [|c s]; [discriminate|]. cbn [PyStr.count].
  apply andb_true_iff in H as [Hc Hs].
  rewrite all_portable_no_slash by assumption.
  destruct (Ascii.eqb_spec c "/") as [->|]; [discriminate | reflexivity].
Qed.

(** Beside a file, under a legal name, a save goes through. *)
Lemma surely_saved_beside (dir leaf leaf' : string) :
  PyStr.count "/" leaf = 0 -> legal_leaf leaf' = true ->
  surely_saved (path_join dir leaf) (path_join dir leaf') = true.
Proof.
  intros H H'. unfold surely_saved.
  rewrite !split_last_join by (try assumption; now apply legal_leaf_no_slash).
  now rewrite String.eqb_refl, H'.
Qed.



End PathFacts.

(** ** The pipeline, call by call *)

Section PipelineFacts.

Variable svc : services.
Variable inp : inputs.
Variable tmpdir : string.
Variable total : nat.

(** *** fill_ppt *)

Lemma fill_ppt_ok (tp out : string) (data : row) (w : world) (prs : presentation) :
  decks w !! tp = Some prs ->
  save_error svc tp out = None ->
  fill_ppt svc tp out data w
  = Ok tt (log (EvSaved out (fill_presentation data prs))
               (write_deck out (fill_presentation data prs) w)).
Proof. intros H Hs. unfold fill_ppt. now rewrite H, Hs. Qed.

Lemma fill_ppt_inv (tp out : string) (data : row) (w : world) (r : result unit) :
  fill_ppt svc tp out data w = r ->
  match r with
  | Ok _ w1 =>
      exists prs, decks w !! tp = Some prs
        /\ save_error svc tp out = None
        /\ w1 = log (EvSaved out (fill_presentation data prs))
                    (write_deck out (fill_presentation data prs) w)
  | Raise e w1 =>
      w1 = w
      /\ ((decks w !! tp = None /\ e = PackageNotFoundError tp)
          \/ (is_Some (decks w !! tp) /\ save_error svc tp out = Some e))
  end.
Proof.
  intros <-. unfold fill_ppt. destruct (decks w !! tp) as [prs|] eqn:E.
  - destruct (save_error svc tp out) as [e|] eqn:S.
    + split; [reflexivity|]. right. split; [now eexists | reflexivity].
    + now exists prs.
  - split; [reflexivity|]. now left.
Qed.

(** A save beside the template under a legal name goes through. *)
Lemma save_error_beside (dir leaf leaf' : string) :
  PyStr.count "/" leaf = 0 -> legal_leaf leaf' = true ->
  save_error svc (path_join dir leaf) (path_join dir leaf') = None.
Proof. intros H H'. unfold save_error. now rewrite surely_saved_beside. Qed.

(** *** ppt_to_images *)

Lemma ppt_to_images_inv (src folder : string) (w : world) (r : result unit) :
  ppt_to_images svc src folder w = r ->
  match r with
  | Ok _ w1 =>
      exists prs imgs, decks w !! src = Some prs
        /\ powerpoint svc src prs = Some imgs
        /\ w1 = log (EvRendered src folder imgs) (save_as folder imgs (mkdir folder w))
  | Raise e w1 =>
      (decks w !! src = None /\ e = FileNotFoundError src /\ w1 = mkdir folder w)
      \/ (exists prs, decks w !! src = Some prs
            /\ powerpoint svc src prs = None /\ e = COMError
            /\ w1 = save_as folder (powerpoint_leftover svc src prs) (mkdir folder w))
  end.
Proof.
  intros <-. unfold ppt_to_images. cbn [mkdir set_folder decks].
  destruct (decks w !! src) as [prs|] eqn:E.
  - destruct (powerpoint svc src prs) as [imgs|] eqn:P.
    + now exists prs, imgs.
    + right. now exists prs.
  - now left.
Qed.

(** A render call that raises shows nothing and touches no deck. *)
Lemma ppt_to_images_raise (src folder : string) (w : world) (e : exn) (w1 : world) :
  ppt_to_images svc src folder w = Raise e w1 ->
  trace w1 = trace w /\ decks w1 = decks w /\ msgids w1 = msgids w.
Proof.
  intros H. apply ppt_to_images_inv in H as [(_ & _ & ->)|(prs & _ & _ & _ & ->)]; easy.
Qed.

(** What [glob] lists can be opened. *)
Lemma glob_first_readable (folder : string) (w : world) (first : image_path)
    (others : list image_path) :
  glob_png folder w = first :: others ->
  is_Some (read_image first (next_msgid w)).
Proof.
  unfold glob_png, read_image, folder_images. cbn [folders next_msgid].
  destruct (folders w !! folder) as [imgs|] eqn:E; cbn [default].
  - destruct imgs as [|img imgs]; [discriminate|].
    cbn [length seq map]. intros [= <- _]. cbn [fst snd]. rewrite E. now eexists.
  - discriminate.
Qed.

(** *** send_email *)

Lemma send_email_inv (sender password : string) (recipient : cell)
    (subject body : string) (attachments : list image_path) (name : option cell)
    (event : string) (w : world) (r : result unit) :
  send_email svc sender password recipient subject body attachments name event w = r ->
  match r with
  | Ok _ w1 =>
      exists msg, w1 = log (EvSmtp msg true) (next_msgid w)
        /\ msg_to msg = py_str recipient
        /\ smtp_accepts svc sender password msg = true
  | Raise e w1 =>
      (exists msg, w1 = log (EvSmtp msg false) (next_msgid w)
         /\ msg_to msg = py_str recipient
         /\ smtp_accepts svc sender password msg = false
         /\ e = SMTPException)
      \/ (w1 = next_msgid w
          /\ exists first others, attachments = first :: others
               /\ read_image first (next_msgid w) = None)
  end.
Proof.
  intros <-. unfold send_email, deliver.
  destruct attachments as [|first others].
  - destruct (smtp_accepts _ _ _ _) eqn:A; [|left]; eexists; repeat split; exact A.
  - destruct (read_image first (next_msgid w)) as [img|] eqn:E.
    + destruct (smtp_accepts _ _ _ _) eqn:A; [|left]; eexists; repeat split; exact A.
    + right. split; [reflexivity|]. now exists first, others.
Qed.

(** *** The block under [if recipient:] *)

Lemma dispatch_skip (data : row) (images : list image_path) (sent : nat) (w : world) :
  has_recipient inp data = false ->
  dispatch svc inp data images sent w = Ok sent w.
Proof.
  unfold has_recipient, dispatch. intros H.
  destruct (dict_get (email_column inp) data) as [r|]; [|reflexivity].
  now rewrite H.
Qed.

(** With the images [glob] has just listed, the block fails only when the
    SMTP server refuses. *)
Lemma dispatch_inv (data : row) (folder : string) (sent : nat) (w : world)
    (r : result nat) :
  dispatch svc inp data (glob_png folder w) sent w = r ->
  match r with
  | Ok sent' w1 =>
      (has_recipient inp data = false /\ sent' = sent /\ w1 = w)
      \/ (has_recipient inp data = true /\ sent' = S sent
          /\ exists msg, w1 = log (EvSmtp msg true) (next_msgid w)
               /\ msg_to msg = py_str_opt (dict_get (email_column inp) data))
  | Raise e w1 =>
      has_recipient inp data = true /\ e = SMTPException
      /\ exists msg, w1 = log (EvSmtp msg false) (next_msgid w)
           /\ msg_to msg = py_str_opt (dict_get (email_column inp) data)
           /\ smtp_accepts svc (sender_email inp) (sender_password inp) msg = false
  end.
Proof.
  intros <-. destruct (has_recipient inp data) eqn:H.
  - unfold has_recipient in H. unfold dispatch.
    destruct (dict_get (email_column inp) data) as [rc|] eqn:G; [|discriminate].
    rewrite H. unfold bind.
    match goal with |- context [send_email ?a1 ?a2 ?a3 ?a4 ?a5 ?a6 ?a7 ?a8 ?a9 ?a10] =>
      pose proof (send_email_inv a2 a3 a4 a5 a6 a7 a8 a9 a10 _ eq_refl) as S;
      destruct (send_email a1 a2 a3 a4 a5 a6 a7 a8 a9 a10) as [u w1|e w1]
    end.
    + destruct S as (msg & -> & Hto & _). right. repeat split. now exists msg.
    + destruct S as [(msg & -> & Hto & Hno & ->)|(-> & first & others & Hg & Hr)].
      * repeat split. now exists msg.
      * destruct (glob_first_readable _ _ _ _ Hg) as [img Himg]. congruence.
  - rewrite dispatch_skip by assumption. now left.
Qed.

(** *** One turn of the loop *)

Lemma process_row_stages (idx : nat) (data : row) (sent : nat) (w : world) :
  process_row svc inp tmpdir total idx data sent w
  = match fill_ppt svc (template_path tmpdir) (temp_ppt tmpdir idx data) data
            (log (EvStatus (status_line total idx data)) w) with
    | Raise e w1 => Raise e w1
    | Ok _ w1 =>
        match ppt_to_images svc (temp_ppt tmpdir idx data) (person_out inp idx data) w1 with
        | Raise e w2 => Raise e w2
        | Ok _ w2 =>
            match dispatch svc inp data (glob_png (person_out inp idx data) w2) sent w2 with
            | Raise e w3 => Raise e w3
            | Ok sent' w3 => Ok sent' (log (EvProgress (idx + 1) total) w3)
            end
        end
    end.
Proof.
  unfold process_row, bind, effect, glob, ret.
  destruct (fill_ppt _ _ _ _ _) as [u w1|e w1]; [|reflexivity].
  destruct (ppt_to_images _ _ _ _) as [u2 w2|e w2]; [|reflexivity].
  destruct (dispatch _ _ _ _ _ _); reflexivity.
Qed.

(** A turn that ends well: what it read, wrote and showed. *)
Lemma process_row_ok (idx : nat) (data : row) (sent : nat) (w : world)
    (sent' : nat) (w' : world) :
  process_row svc inp tmpdir total idx data sent w = Ok sent' w' ->
  exists prs imgs sends,
    decks w !! template_path tmpdir = Some prs
    /\ decks w' = <[temp_ppt tmpdir idx data := fill_presentation data prs]> (decks w)
    /\ trace w'
       = EvProgress (idx + 1) total
           :: sends
           ++ EvRendered (temp_ppt tmpdir idx data) (person_out inp idx data) imgs
           :: EvSaved (temp_ppt tmpdir idx data) (fill_presentation data prs)
           :: EvStatus (status_line total idx data) :: trace w
    /\ ((has_recipient inp data = false /\ sent' = sent /\ sends = [])
        \/ (has_recipient inp data = true /\ sent' = S sent
            /\ exists msg, sends = [EvSmtp msg true]
                 /\ msg_to msg = py_str_opt (dict_get (email_column inp) data))).
Proof.
  rewrite process_row_stages. intros H.
  destruct (fill_ppt _ _ _ _ _) as [u w1|e w1] eqn:F; [|discriminate].
  apply fill_ppt_inv in F as (prs & Hprs & _ & ->).
  destruct (ppt_to_images _ _ _ _) as [u2 w2|e w2] eqn:P; [|discriminate].
  apply ppt_to_images_inv in P as (filled & imgs & _ & _ & ->).
  destruct (dispatch _ _ _ _ _ _) as [s3 w3|e w3] eqn:D; [|discriminate].
  apply dispatch_inv in D. injection H as <- <-.
  exists prs, imgs.
  destruct D as [(Hr & -> & ->)|(Hr & -> & msg & -> & Hto)].
  - exists []. repeat split; [exact Hprs|]. left. easy.
  - exists [EvSmtp msg true]. repeat split; [exact Hprs|]. right.
    repeat split; [exact Hr|]. now exists msg.
Qed.

(** A turn that raises: no progress is shown, no message is taken, and
    without recipient none is offered. *)
Lemma process_row_raise (idx : nat) (data : row) (sent : nat) (w : world)
    (e : exn) (w' : world) :
  process_row svc inp tmpdir total idx data sent w = Raise e w' ->
  rows_processed w' = rows_processed w
  /\ emails_sent w' = emails_sent w
  /\ (has_recipient inp data = false -> send_attempts w' = send_attempts w).
Proof.
  rewrite process_row_stages. intros H.
  destruct (fill_ppt _ _ _ _ _) as [u w1|e1 w1] eqn:F.
  - apply fill_ppt_inv in F as (prs & Hprs & _ & ->).
    destruct (ppt_to_images _ _ _ _) as [u2 w2|e2 w2] eqn:P.
    + apply ppt_to_images_inv in P as (filled & imgs & _ & _ & ->).
      destruct (dispatch _ _ _ _ _ _) as [s3 w3|e3 w3] eqn:D; [discriminate|].
      apply dispatch_inv in D as (Hr & -> & msg & -> & _). injection H as <- <-.
      repeat split. congruence.
    + apply ppt_to_images_raise in P as (Ht & _ & _). injection H as <- <-.
      unfold rows_processed, emails_sent, send_attempts. now rewrite Ht.
  - apply fill_ppt_inv in F as (-> & _). injection H as <- <-. easy.
Qed.

Lemma process_row_ok_readings (idx : nat) (data : row) (sent : nat) (w : world)
    (sent' : nat) (w' : world) :
  process_row svc inp tmpdir total idx data sent w = Ok sent' w' ->
  let b := if has_recipient inp data then 1 else 0 in
  rows_processed w' = S (rows_processed w)
  /\ saved_paths w' = temp_ppt tmpdir idx data :: saved_paths w
  /\ rendered_folders w' = person_out inp idx data :: rendered_folders w
  /\ sent' = sent + b
  /\ emails_sent w' = emails_sent w + b
  /\ send_attempts w' = send_attempts w + b
  /\ is_Some (decks w' !! template_path tmpdir).
Proof.
  intros H. apply process_row_ok in H as (prs & imgs & sends & Hprs & Hd & Ht & Hs).
  assert (is_Some (decks w' !! template_path tmpdir)) as Htpl.
  { rewrite Hd. destruct (decide (temp_ppt tmpdir idx data = template_path tmpdir)) as [->|Hne].
    - rewrite lookup_insert_eq. now eexists.
    - rewrite lookup_insert_ne by assumption. rewrite Hprs. now eexists. }
  unfold rows_processed, saved_paths, rendered_folders, emails_sent, send_attempts.
  rewrite Ht.
  destruct Hs as [(-> & -> & ->)|(-> & -> & msg & -> & _)]; cbn;
    repeat split; try lia; assumption.
Qed.

(** *** The loop *)


Lemma batch_loop_not_stopped (idx : nat) (rows : list row) (sent : nat) (w w' : world) :
  batch_loop svc inp tmpdir total idx rows sent w <> Stopped w'.
Proof.
  revert idx sent w. induction rows as [|data rows IH]; intros idx sent w; [easy|].
  cbn [batch_loop]. destruct (process_row _ _ _ _ _ _ _ _); [apply IH | easy].
Qed.

(** A loop that runs to its end has saved and rendered one deck a row, in
    roster order, shown progress for every row and sent to the rows with a
    recipient. *)
Lemma batch_loop_finished (idx : nat) (rows : list row) (sent : nat) (w : world)
    (sent' : nat) (w' : world) :
  batch_loop svc inp tmpdir total idx rows sent w = Finished sent' w' ->
  let n := length (List.filter (has_recipient inp) rows) in
  rows_processed w' = rows_processed w + length rows
  /\ saved_paths w' = (rev (row_decks tmpdir idx rows) ++ saved_paths w)%list
  /\ rendered_folders w' = (rev (row_folders inp idx rows) ++ rendered_folders w)%list
  /\ sent' = sent + n
  /\ emails_sent w' = emails_sent w + n
  /\ send_attempts w' = send_attempts w + n.
Proof.
  revert idx sent w. induction rows as [|data rows IH]; intros idx sent w H.
  - injection H as <- <-. cbn. repeat split; lia.
  - cbn [batch_loop] in H.
    destruct (process_row _ _ _ _ _ _ _ _) as [s1 w1|e w1] eqn:R; [|discriminate].
    apply process_row_ok_readings in R as (R1 & R2 & R3 & R4 & R5 & R6 & _).
    apply IH in H as (H1 & H2 & H3 & H4 & H5 & H6).
    cbn [row_decks row_folders rev List.filter length].
    rewrite H1, H2, H3, H4, H5, H6, R1, R2, R3, R4, R5, R6, <- !app_assoc.
    destruct (has_recipient inp data); cbn [length app]; repeat split; lia.
Qed.

(** The loop shows no tally. *)
Lemma batch_loop_finished_tallies (idx : nat) (rows : list row) (sent : nat)
    (w : world) (sent' : nat) (w' : world) :
  batch_loop svc inp tmpdir total idx rows sent w = Finished sent' w' ->
  tallies w' = tallies w.
Proof.
  revert idx sent w. induction rows as [|data rows IH]; intros idx sent w H.
  - now injection H as <- <-.
  - cbn [batch_loop] in H.
    destruct (process_row _ _ _ _ _ _ _ _) as [s1 w1|e w1] eqn:R; [|discriminate].
    apply IH in H. rewrite H.
    apply process_row_ok in R as (prs & imgs & sends & _ & _ & Ht & Hs).
    unfold tallies. rewrite Ht.
    destruct Hs as [(_ & _ & ->)|(_ & _ & msg & -> & _)]; reflexivity.
Qed.

(** A loop that is left by an exception: the rows before the one that
    raised ran to their end, and that is all. *)
Lemma batch_loop_aborted (idx : nat) (rows : list row) (sent : nat) (w : world)
    (k : nat) (e : exn) (sent' : nat) (w' : world) :
  batch_loop svc inp tmpdir total idx rows sent w = Aborted k e sent' w' ->
  exists pre data post w1,
    rows = (pre ++ data :: post)%list
    /\ k = idx + length pre
    /\ batch_loop svc inp tmpdir total idx pre sent w = Finished sent' w1
    /\ process_row svc inp tmpdir total k data sent' w1 = Raise e w'.
Proof.
  revert idx sent w. induction rows as [|data rows IH]; intros idx sent w H;
    [discriminate|].
  cbn [batch_loop] in H.
  destruct (process_row _ _ _ _ _ _ _ _) as [s1 w1|e1 w1] eqn:R.
  - apply IH in H as (pre & d & post & w2 & -> & -> & Hpre & Hd).
    exists (data :: pre), d, post, w2. cbn [app length batch_loop]. rewrite R.
    repeat split; [lia | exact Hpre |].
    now replace (idx + S (length pre)) with (S idx + length pre) by lia.
  - injection H as <- <- <- <-. exists [], data, rows, w.
    cbn. rewrite Nat.add_0_r. easy.
Qed.

(** A turn that ends well has filled the template into the deck of the row
    and rendered that deck into the folder of the row. *)
Lemma process_row_ok_content (idx : nat) (data : row) (sent : nat) (w : world)
    (sent' : nat) (w' : world) :
  process_row svc inp tmpdir total idx data sent w = Ok sent' w' ->
  row_filled_and_rendered svc inp tmpdir idx data w w'.
Proof.
  rewrite process_row_stages. intros H.
  destruct (fill_ppt _ _ _ _ _) as [u w1|e w1] eqn:F; [|discriminate].
  apply fill_ppt_inv in F as (prs & Hprs & _ & ->).
  destruct (ppt_to_images _ _ _ _) as [u2 w2|e w2] eqn:P; [|discriminate].
  apply ppt_to_images_inv in P as (filled & imgs & Hfilled & Himgs & ->).
  cbn [log write_deck decks] in Hfilled. rewrite lookup_insert_eq in Hfilled.
  injection Hfilled as <-.
  destruct (dispatch _ _ _ _ _ _) as [s3 w3|e w3] eqn:D; [|discriminate].
  apply dispatch_inv in D. injection H as <- <-.
  exists prs, (fill_presentation data prs), imgs.
  assert (decks w3 !! temp_ppt tmpdir idx data = Some (fill_presentation data prs)
          /\ folder_images (person_out inp idx data) w3
             = (imgs ++ drop (length imgs) (folder_images (person_out inp idx data) w))%list)
    as [Hd Hf].
  { destruct D as [(_ & _ & ->)|(_ & _ & msg & -> & _)];
      unfold folder_images;
      cbn [log next_msgid save_as mkdir set_folder write_deck decks folders];
      rewrite lookup_insert_eq; unfold folder_images;
      cbn [log next_msgid save_as mkdir set_folder write_deck decks folders];
      rewrite !lookup_insert_eq; cbn [default]; easy. }
  repeat split; try assumption.
  - apply skeleton_fill.
  - apply presentation_runs_fill.
Qed.


(** *** When the services do not fail *)




End PipelineFacts.

(** ** The dispatcher *)


(** ** The orchestrator *)

Section BatchFacts.









End BatchFacts.





Section TemplateFacts.

Variable svc : services.
Variable inp : inputs.
Variable tmpdir : string.
Variable total : nat.

(** As long as no row's deck is saved at the path of the template, every
    row is filled from the template the batch started with, and the
    template is still there at the end. *)
Lemma batch_loop_shares_template (idx : nat) (rows : list row) (sent : nat)
    (w : world) (template : presentation) (sent' : nat) (w' : world) :
  decks w !! template_path tmpdir = Some template ->
  template_path tmpdir ∉ row_decks tmpdir idx rows ->
  batch_loop svc inp tmpdir total idx rows sent w = Finished sent' w' ->
  decks w' !! template_path tmpdir = Some template
  /\ saved_decks w' = (rev (row_fills tmpdir template idx rows) ++ saved_decks w)%list.
Proof.
  revert idx sent w. induction rows as [|data rows IH]; intros idx sent w Htpl Hnot H.
  - injection H as <- <-. easy.
  - cbn [batch_loop] in H. cbn [row_decks] in Hnot.
    apply not_elem_of_cons in Hnot as [Hne Hnot].
    destruct (process_row _ _ _ _ _ _ _ _) as [s1 w1|e w1] eqn:R; [|discriminate].
    apply process_row_ok in R as (prs & imgs & sends & Hprs & Hd & Ht & Hs).
    assert (prs = template) as -> by congruence.
    assert (decks w1 !! template_path tmpdir = Some template) as Htpl1.
    { rewrite Hd, lookup_insert_ne by congruence. exact Htpl. }
    destruct (IH _ _ _ Htpl1 Hnot H) as [H1 H2]. split; [exact H1|].
    rewrite H2. cbn [row_fills rev]. rewrite <- app_assoc. f_equal.
    unfold saved_decks. rewrite Ht.
    destruct Hs as [(_ & _ & ->)|(_ & _ & msg & -> & _)]; reflexivity.
Qed.

End TemplateFacts.




(** C2 at the roster of the scenario: three rows, the EMAIL field of the
    second left empty. pandas reads the empty field as NaN, NaN is true
    under [if recipient:], and [send_email] is called for the row with the
    addressee "nan". Whatever the services do, a loop that runs to its end
    has sent 3 messages, not 2; with a server that takes every message the
    batch ends with 3 sent and 3 processed, with a server that refuses the
    addressee "nan" the exception leaves the loop at the second row. *)
Theorem empty_email_cell_is_dispatched :
  has_recipient demo_inputs bob_blank_row = true
  /\ (forall svc tmpdir total w sent w',
        batch_loop svc demo_inputs tmpdir total 0 [ada_row; bob_blank_row; cy_row] 0 w
        = Finished sent w' ->
        sent = 3 /\ emails_sent w' = emails_sent w + 3
        /\ rows_processed w' = rows_processed w + 3)
  /\ (let out := batch_loop accepting demo_inputs "tmp" 3 0
                   [ada_row; bob_blank_row; cy_row] 0 (start_world "tmp" name_deck) in
      sent_of out = Some 3
      /\ rows_processed (world_of out) = 3
      /\ sent_to (world_of out) = ["cy@example.com"; "nan"; "ada@example.com"])
  /\ (let out := batch_loop refusing_nan demo_inputs "tmp" 3 0
                   [ada_row; bob_blank_row; cy_row] 0 (start_world "tmp" name_deck) in
      abort_of out = Some (1, SMTPException)
      /\ rows_processed (world_of out) = 1
      /\ sent_to (world_of out) = ["ada@example.com"]).
Proof.
  split; [reflexivity|]. split.
  - intros svc tmpdir total w sent w' H.
    apply batch_loop_finished in H as (H1 & _ & _ & H4 & H5 & _).
    cbn in H1, H4, H5. easy.
  - split; cbv zeta; repeat split; vm_compute; reflexivity.
Qed.

(** C8 at a roster whose first recipient is called "template": the deck of
    that row is saved at the path of the template, [tmp/template.pptx], so the
    template the second row is filled from is no longer the uploaded one, and
    the certificate of Ada reads "template". *)
Theorem recipient_named_template_overwrites_template :
  let w0 := start_world "tmp" name_deck in
  let out := batch_loop accepting demo_inputs "tmp" 2 0 [template_row; ada_row] 0 w0 in
  temp_ppt "tmp" 0 template_row = template_path "tmp"
  /\ decks w0 !! template_path "tmp" = Some (one_run_deck "bold" "Awarded to {{NAME}}")
  /\ sent_of out = Some 2
  /\ decks (world_of out) !! template_path "tmp"
     = Some (one_run_deck "bold" "Awarded to template")
  /\ saved_decks (world_of out)
     = [("tmp/Ada.pptx", one_run_deck "bold" "Awarded to template");
        ("tmp/template.pptx", one_run_deck "bold" "Awarded to template")].
Proof. cbv zeta. repeat split; vm_compute; reflexivity. Qed.

(** The same two rows in a batch where no deck is saved over the template:
    each is filled from the uploaded template. *)
Example other_names_share_template :
  let out := batch_loop accepting demo_inputs "tmp" 2 0 [bob_row; ada_row] 0
               (start_world "tmp" name_deck) in
  decks (world_of out) !! template_path "tmp" = Some name_deck
  /\ saved_decks (world_of out)
     = [("tmp/Ada.pptx", one_run_deck "bold" "Awarded to Ada");
        ("tmp/Bob.pptx", one_run_deck "bold" "Awarded to Bob")].
Proof. cbv zeta. split; vm_compute; reflexivity. Qed.

(** ** The handler of the button *)

(** With a field left empty nothing is done. *)
Lemma generate_and_send_guard (svc : services) (inp : inputs) (tmpdir : string)
    (w : world) :
  all_fields inp = false -> generate_and_send svc inp tmpdir w = Stopped w.
Proof.
  intros H. unfold generate_and_send. rewrite H.
  destruct (ppt_file inp), (csv_file inp); reflexivity.
Qed.

(** The sample batch from the upload to the tally: three sent of three, and
    the temporary directory is gone. *)
Example generate_and_send_demo :
  let out := generate_and_send accepting demo_inputs "tmp" (World ∅ ∅ 0 []) in
  sent_of out = Some 3
  /\ head (trace (world_of out)) = Some (EvTally 3 3)
  /\ rows_processed (world_of out) = 3
  /\ decks (world_of out) = ∅
  /\ sent_to (world_of out) = ["cy@example.com"; "bob@example.com"; "ada@example.com"].
Proof. cbv zeta. repeat split; vm_compute; reflexivity. Qed.


(** * Further properties of the code *)

(** ** Substitution: placeholders left, filling again *)

Section CoverageFacts.

Lemma length_replace_from_empty (old s : string) (n : nat) :
  String.length (PyStr.replace_from old "" n s) <= String.length s.
Proof.
  revert n. induction s as [|c s IH]; intros n; [reflexivity|].
  cbn [PyStr.replace_from String.length]. destruct n as [|n].
  - destruct (String.prefix old (String c s)).
    + rewrite app_nil_l_s. specialize (IH (String.length old - 1)). lia.
    + cbn [String.length]. specialize (IH 0). lia.
  - specialize (IH n). lia.
Qed.

(** Replacing by the empty text shortens a text that holds the sought one. *)
Lemma replace_from_shorter (c : ascii) (o s : string) :
  PyStr.contains (String c o) s = true ->
  String.length (PyStr.replace_from (String c o) "" 0 s) < String.length s.
Proof.
  induction s as [|x s IH]; [discriminate|].
  cbn [PyStr.contains]. intros H.
  cbn [PyStr.replace_from String.length].
  destruct (String.prefix (String c o) (String x s)) eqn:P.
  - rewrite app_nil_l_s.
    pose proof (length_replace_from_empty (String c o) s (String.length (String c o) - 1)).
    cbn [String.length] in *. lia.
  - cbn [orb] in H. cbn [String.length]. specialize (IH H). lia.
Qed.

Lemma subst1_absent (k v : string) (ts : list token) :
  Ph k ∉ ts -> map (subst1 k v) ts = ts.
Proof.
  induction ts as [|t ts IH]; intros H; [reflexivity|].
  apply not_elem_of_cons in H as [Hne Hin]. cbn [map]. rewrite IH by assumption.
  f_equal. destruct t as [s|k']; [reflexivity|]. cbn [subst1].
  destruct (String.eqb_spec k' k); [congruence | reflexivity].
Qed.

(** A cut text holds the placeholder of a key only as one of its pieces. *)
Lemma tokens_no_placeholder (k : string) (ts : list token) :
  brace_free k -> Forall token_plain ts -> Ph k ∉ ts ->
  PyStr.contains (placeholder k) (tokens_text ts) = false.
Proof.
  intros Hk Hts Hno. destruct (PyStr.contains _ _) eqn:E; [|reflexivity].
  rewrite placeholder_unfold in E. apply replace_from_shorter in E.
  rewrite <- placeholder_unfold, replace_tokens, subst1_absent in E by assumption.
  lia.
Qed.

Lemma dict_get_elem (k : string) (v : cell) (data : row) :
  dict_get k data = Some v -> (k, v) ∈ data.
Proof.
  induction data as [|[k' v'] data IH]; [discriminate|].
  cbn [dict_get]. destruct (String.eqb_spec k' k) as [->|].
  - intros [= ->]. apply list_elem_of_here.
  - intros H. apply list_elem_of_further. now apply IH.
Qed.

Lemma dict_get_column (k : string) (data : row) :
  k ∈ data.*1 -> is_Some (dict_get k data).
Proof.
  induction data as [|[k' v'] data IH]; cbn; intros H.
  - now apply elem_of_nil in H.
  - destruct (String.eqb_spec k' k); [now eexists|].
    apply elem_of_cons in H as [->|H]; [congruence | now apply IH].
Qed.

Lemma substituted_tokens (data : row) (ts : list token) :
  substituted data ts = tokens_text (subst_tokens data ts).
Proof.
  induction ts as [|t ts IH]; [reflexivity|].
  cbn [substituted subst_tokens map tokens_text]. fold (subst_tokens data ts).
  rewrite IH. f_equal. destruct t as [s|k]; [reflexivity|].
  cbn [subst_token]. now destruct (dict_get k data).
Qed.

Lemma subst_tokens_plain (data : row) (ts : list token) :
  Forall item_plain data -> Forall token_plain ts ->
  Forall token_plain (subst_tokens data ts).
Proof.
  intros Hdata Hts. apply Forall_fmap. eapply Forall_impl; [exact Hts|].
  intros [s|k] Ht; cbn; [exact Ht|].
  destruct (dict_get k data) as [v|] eqn:G; [|exact Ht].
  apply dict_get_elem in G. rewrite Forall_forall in Hdata.
  now destruct (Hdata _ G).
Qed.

Lemma subst_tokens_no_column (data : row) (ts : list token) (k : string) :
  k ∈ data.*1 -> Ph k ∉ subst_tokens data ts.
Proof.
  intros Hk Hin. apply dict_get_column in Hk as [v Hv].
  unfold subst_tokens in Hin. apply list_elem_of_fmap in Hin as ([s|k'] & Heq & _).
  - discriminate.
  - destruct (dict_get k' data) eqn:G; [discriminate|]. congruence.
Qed.

(** Under the conditions of the plain substitution, the text that comes out
    holds the placeholder of no column. *)
Lemma fill_text_covers (data : row) (ts : list token) (k : string) :
  Forall item_plain data -> Forall token_plain ts -> k ∈ data.*1 ->
  PyStr.contains (placeholder k) (fill_text data (tokens_text ts)) = false.
Proof.
  intros Hdata Hts Hk.
  rewrite fill_text_tokens, substituted_tokens by assumption.
  apply tokens_no_placeholder.
  - rewrite Forall_forall in Hdata. apply list_elem_of_fmap in Hk as ([k' v] & -> & Hin).
    now destruct (Hdata _ Hin).
  - now apply subst_tokens_plain.
  - now apply subst_tokens_no_column.
Qed.

Lemma fill_run_again (data : row) (r : run) :
  Forall item_plain data -> tokenised r ->
  fill_run data (fill_run data r) = fill_run data r.
Proof.
  intros Hdata (ts & Hts & Ht). apply fill_run_unchanged. intros k v Hin.
  rewrite fill_run_text. cbn [run_text]. rewrite Ht.
  apply fill_text_covers; try assumption.
  apply list_elem_of_fmap. now exists (k, v).
Qed.

(** Runs that the loop leaves alone make a presentation that it leaves
    alone. *)
Lemma fill_shape_fixed (data : row) (s : shape) :
  Forall (fun r => fill_run data r = r) (shape_runs s) -> fill_shape data s = s.
Proof.
  destruct s as [x ps|x]; [|reflexivity]. cbn [shape_runs fill_shape]. intros H.
  f_equal. induction ps as [|p ps IH]; [reflexivity|].
  cbn [map List.concat] in *. apply Forall_app in H as [Hp Hps].
  rewrite IH by assumption. f_equal.
  destruct p as [pPr rs]. unfold fill_paragraph. cbn [par_pPr par_runs] in *. f_equal.
  induction Hp as [|r rs Hr _ IHr]; [reflexivity|]. cbn [map]. now rewrite Hr, IHr.
Qed.

Lemma fill_slide_fixed (data : row) (s : slide) :
  Forall (fun r => fill_run data r = r) (slide_runs s) -> fill_slide data s = s.
Proof.
  destruct s as [shapes]. unfold slide_runs, fill_slide. cbn [slide_shapes]. intros H.
  f_equal. induction shapes as [|sh shapes IH]; [reflexivity|].
  cbn [map List.concat] in *. apply Forall_app in H as [Hs Hrest].
  now rewrite IH, fill_shape_fixed.
Qed.

Lemma fill_presentation_fixed (data : row) (prs : presentation) :
  Forall (fun r => fill_run data r = r) (presentation_runs prs) ->
  fill_presentation data prs = prs.
Proof.
  destruct prs as [sl]. unfold presentation_runs, fill_presentation. cbn [slides].
  intros H. f_equal. induction sl as [|s sl IH]; [reflexivity|].
  cbn [map List.concat] in *. apply Forall_app in H as [Hs Hrest].
  now rewrite IH, fill_slide_fixed.
Qed.

End CoverageFacts.

(** X1: placeholder coverage. When no column name holds a brace and no text
    put in holds an opening brace, a run of literal pieces and placeholders
    comes out holding the placeholder of no column of the row. *)
Theorem fill_leaves_no_column_placeholder (data : row) (prs : presentation)
    (i : nat) (r : run) (k : string) :
  Forall item_plain data -> tokenised r ->
  presentation_runs prs !! i = Some r -> k ∈ data.*1 ->
  exists r', presentation_runs (fill_presentation data prs) !! i = Some r'
    /\ PyStr.contains (placeholder k) (run_text r') = false.
Proof.
  intros Hdata (ts & Hts & Ht) Hi Hk. exists (fill_run data r). split.
  - rewrite presentation_runs_fill, list_lookup_fmap, Hi. reflexivity.
  - rewrite fill_run_text. cbn [run_text]. rewrite Ht. now apply fill_text_covers.
Qed.

Lemma fill_leaves_no_column_placeholder_congrats :
  exists r', presentation_runs (fill_presentation congrats_row congrats_deck) !! 0 = Some r'
    /\ PyStr.contains (placeholder "TEAM") (run_text r') = false.
Proof.
  refine (fill_leaves_no_column_placeholder congrats_row congrats_deck 0
            (Run "bold" "Congrats {{NAME}} from {{TEAM}}") "TEAM" _ _ eq_refl _).
  - repeat constructor.
  - exists congrats_tokens. split; [repeat constructor | reflexivity].
  - apply list_elem_of_In. cbn. tauto.
Defined.

(** X2: filling a filled deck again with the same row changes nothing, under
    the same conditions on the row and when every run of the template is
    literal pieces and placeholders. *)
Theorem fill_presentation_again (data : row) (prs : presentation) :
  Forall item_plain data -> Forall tokenised (presentation_runs prs) ->
  fill_presentation data (fill_presentation data prs) = fill_presentation data prs.
Proof.
  intros Hdata Hruns. apply fill_presentation_fixed.
  rewrite presentation_runs_fill. apply Forall_fmap.
  eapply Forall_impl; [exact Hruns|]. intros r Hr. now apply fill_run_again.
Qed.

Lemma fill_presentation_again_congrats :
  fill_presentation congrats_row (fill_presentation congrats_row congrats_deck)
  = fill_presentation congrats_row congrats_deck.
Proof.
  refine (fill_presentation_again congrats_row congrats_deck _ _).
  - repeat constructor.
  - repeat constructor. exists congrats_tokens. split; [repeat constructor | reflexivity].
Defined.

(** X3: a template none of whose runs holds the placeholder of a column is
    saved as it is: when the save goes through, the certificate is a copy
    of the template. In particular a row without columns changes nothing. *)
Theorem fill_ppt_copies_template_without_placeholders (svc : services)
    (tp out : string) (data : row) (w : world) (template : presentation)
    (w' : world) :
  decks w !! tp = Some template ->
  (forall r k, r ∈ presentation_runs template -> k ∈ data.*1 ->
               PyStr.contains (placeholder k) (run_text r) = false) ->
  fill_ppt svc tp out data w = Ok tt w' ->
  decks w' !! out = Some template.
Proof.
  intros Htpl Hno H. apply fill_ppt_inv in H as (prs & Hprs & _ & ->).
  assert (prs = template) as -> by congruence.
  cbn [log write_deck decks]. rewrite lookup_insert_eq. f_equal.
  apply fill_presentation_fixed. apply Forall_forall. intros r Hr.
  apply fill_run_unchanged. intros k v Hin. apply (Hno r k Hr).
  apply list_elem_of_fmap. now exists (k, v).
Qed.

Lemma fill_ppt_copies_template_no_columns :
  exists w',
    fill_ppt accepting "tmp/template.pptx" "tmp/x.pptx" [] (start_world "tmp" name_deck)
    = Ok tt w'
    /\ decks w' !! "tmp/x.pptx" = Some name_deck.
Proof.
  eexists. split; [vm_compute; reflexivity|].
  refine (fill_ppt_copies_template_without_placeholders accepting "tmp/template.pptx"
            "tmp/x.pptx" [] (start_world "tmp" name_deck) name_deck _ eq_refl _ _).
  - intros r k _ Hk. now apply elem_of_nil in Hk.
  - vm_compute. reflexivity.
Defined.

(** ** Names and paths *)

Section NameFacts.

Lemma replace_space_none (s : string) : PyStr.count " " (PyStr.replace " " "_" s) = 0.
Proof.
  change (PyStr.replace " " "_" s) with (PyStr.replace_from " " "_" 0 s).
  induction s as [|c s IH]; [reflexivity|].
  cbn [PyStr.replace_from]. rewrite prefix_cons.
  destruct (Ascii.eqb_spec " " c) as [<-|Hne].
  - replace (String.prefix "" s) with true by now destruct s.
    cbn [String.length Nat.sub]. rewrite count_app, IH. reflexivity.
  - cbn [PyStr.count]. rewrite IH.
    destruct (Ascii.eqb_spec c " "); [congruence | reflexivity].
Qed.

End NameFacts.

(** X4: no space reaches the names of the output through a recipient's
    name or the event name: the display name of a row, the folder of the
    event and the output folder of the row hold no space. *)
Theorem display_name_has_no_space (inp : inputs) (idx : nat) (data : row) :
  PyStr.count " " (display_name idx data) = 0
  /\ PyStr.count " " (base_output inp) = 0
  /\ PyStr.count " " (person_out inp idx data) = 0.
Proof.
  assert (PyStr.count " " (display_name idx data) = 0) as Hn
    by apply replace_space_none.
  assert (PyStr.count " " (base_output inp) = 0) as Hb.
  { unfold base_output, path_join. rewrite !count_app, replace_space_none. reflexivity. }
  repeat split; try assumption.
  unfold person_out, path_join. rewrite !count_app, Hb, Hn. reflexivity.
Qed.

(** ** The batch: accounting, order, exceptions *)

Section AccountingFacts.

Variable svc : services.
Variable inp : inputs.
Variable tmpdir : string.
Variable total : nat.

Lemma filter_length_le {A} (f : A -> bool) (l : list A) :
  length (List.filter f l) <= length l.
Proof. induction l as [|x l IH]; cbn; [lia|]. destruct (f x); cbn; lia. Qed.

(** A turn that raises has offered at most one message and shown no
    tally. *)
Lemma process_row_raise_attempts (idx : nat) (data : row) (sent : nat) (w : world)
    (e : exn) (w' : world) :
  process_row svc inp tmpdir total idx data sent w = Raise e w' ->
  send_attempts w' <= send_attempts w + 1 /\ tallies w' = tallies w.
Proof.
  rewrite process_row_stages. intros H.
  destruct (fill_ppt _ _ _ _ _) as [u w1|e1 w1] eqn:F.
  - apply fill_ppt_inv in F as (prs & Hprs & _ & ->).
    destruct (ppt_to_images _ _ _ _) as [u2 w2|e2 w2] eqn:P.
    + apply ppt_to_images_inv in P as (filled & imgs & _ & _ & ->).
      destruct (dispatch _ _ _ _ _ _) as [s3 w3|e3 w3] eqn:D; [discriminate|].
      apply dispatch_inv in D as (Hr & -> & msg & -> & _). injection H as <- <-.
      unfold send_attempts, tallies. cbn. split; [lia | reflexivity].
    + apply ppt_to_images_raise in P as (Ht & _ & _). injection H as <- <-.
      unfold send_attempts, tallies. rewrite Ht. cbn. split; [lia | reflexivity].
  - apply fill_ppt_inv in F as (-> & _). injection H as <- <-.
    unfold send_attempts, tallies. cbn. split; [lia | reflexivity].
Qed.

Lemma process_row_ok_sent_to (idx : nat) (data : row) (sent : nat) (w : world)
    (sent' : nat) (w' : world) :
  process_row svc inp tmpdir total idx data sent w = Ok sent' w' ->
  sent_to w'
  = ((if has_recipient inp data
      then [py_str_opt (dict_get (email_column inp) data)] else [])
       ++ sent_to w)%list.
Proof.
  intros H. apply process_row_ok in H as (prs & imgs & sends & _ & _ & Ht & Hs).
  unfold sent_to. rewrite Ht.
  destruct Hs as [(-> & _ & ->)|(-> & _ & msg & -> & <-)]; reflexivity.
Qed.

End AccountingFacts.

(** X5: the messages of a batch that runs to its end go, in roster order, to
    the rows with a recipient, one message a row, each addressed to the text
    of the row's own recipient value. *)
Theorem batch_sends_in_roster_order (svc : services) (inp : inputs)
    (tmpdir : string) (total idx : nat) (rows : list row) (sent : nat)
    (w : world) (sent' : nat) (w' : world) :
  batch_loop svc inp tmpdir total idx rows sent w = Finished sent' w' ->
  sent_to w'
  = (rev (map (fun data => py_str_opt (dict_get (email_column inp) data))
              (List.filter (has_recipient inp) rows)) ++ sent_to w)%list.
Proof.
  revert idx sent w. induction rows as [|data rows IH]; intros idx sent w H.
  - now injection H as <- <-.
  - cbn [batch_loop] in H.
    destruct (process_row _ _ _ _ _ _ _ _) as [s1 w1|e w1] eqn:R; [|discriminate].
    apply process_row_ok_sent_to in R. rewrite (IH _ _ _ H), R.
    cbn [List.filter]. destruct (has_recipient inp data); [|reflexivity].
    cbn [map rev]. now rewrite <- app_assoc.
Qed.

Lemma batch_sends_in_roster_order_demo :
  exists w',
    batch_loop accepting demo_inputs "tmp" 3 0 [ada_row; [("NAME", CStr "Bo")]; cy_row] 0
               (start_world "tmp" name_deck) = Finished 2 w'
    /\ sent_to w' = ["cy@example.com"; "ada@example.com"].
Proof.
  eexists. split; [vm_compute; reflexivity|].
  refine (batch_sends_in_roster_order accepting demo_inputs "tmp" 3 0
            [ada_row; [("NAME", CStr "Bo")]; cy_row] 0 (start_world "tmp" name_deck)
            2 _ _).
  vm_compute. reflexivity.
Defined.

(** X6: the tally. When the handler runs to its end, the count it reports is
    the number of roster rows with a recipient, out of the number of rows;
    that many messages were taken by the server, progress was shown once a
    row, and the count never exceeds the number of rows. *)
Theorem tally_counts_rows_with_recipient (svc : services) (inp : inputs)
    (tmpdir : string) (w : world) (sent : nat) (w' : world) :
  generate_and_send svc inp tmpdir w = Finished sent w' ->
  exists df,
    csv_file inp = Some df
    /\ sent = length (List.filter (has_recipient inp) df)
    /\ sent <= length df
    /\ head (trace w') = Some (EvTally sent (length df))
    /\ emails_sent w' = emails_sent w + sent
    /\ rows_processed w' = rows_processed w + length df.
Proof.
  unfold generate_and_send.
  destruct (ppt_file inp) as [template|]; [|discriminate].
  destruct (csv_file inp) as [df|]; [|discriminate].
  destruct (all_fields inp); [|discriminate].
  destruct (batch_loop _ _ _ _ _ _ _ _) as [s3 w3|k e s3 w3|w3] eqn:B; [|discriminate..].
  intros [= <- <-]. exists df.
  apply batch_loop_finished in B as (H1 & _ & _ & H4 & H5 & _). cbn in H4. subst s3.
  repeat split; try reflexivity.
  - apply filter_length_le.
  - exact H5.
  - exact H1.
Qed.

Lemma tally_counts_rows_with_recipient_demo :
  exists df,
    csv_file demo_inputs = Some df
    /\ 3 = length (List.filter (has_recipient demo_inputs) df)
    /\ 3 <= length df
    /\ head (trace (world_of (generate_and_send accepting demo_inputs "tmp" (World ∅ ∅ 0 []))))
       = Some (EvTally 3 (length df))
    /\ emails_sent (world_of (generate_and_send accepting demo_inputs "tmp" (World ∅ ∅ 0 [])))
       = emails_sent (World ∅ ∅ 0 []) + 3
    /\ rows_processed (world_of (generate_and_send accepting demo_inputs "tmp" (World ∅ ∅ 0 [])))
       = rows_processed (World ∅ ∅ 0 []) + length df.
Proof.
  refine (tally_counts_rows_with_recipient accepting demo_inputs "tmp" (World ∅ ∅ 0 []) 3
            (world_of (generate_and_send accepting demo_inputs "tmp" (World ∅ ∅ 0 []))) _).
  vm_compute. reflexivity.
Defined.

(** X7: when the handler is left by an exception at row [k], the rows
    before [k] are accounted for and nothing after them: progress was shown
    for the [k] rows before, the messages counted and taken are those of
    the rows with a recipient among them, and no tally is shown. *)
Theorem aborted_handler_accounts_for_rows_before (svc : services) (inp : inputs)
    (tmpdir : string) (w : world) (k : nat) (e : exn) (sent : nat) (w' : world) :
  generate_and_send svc inp tmpdir w = Aborted k e sent w' ->
  exists df,
    csv_file inp = Some df
    /\ k < length df
    /\ sent = length (List.filter (has_recipient inp) (take k df))
    /\ sent <= k
    /\ rows_processed w' = rows_processed w + k
    /\ emails_sent w' = emails_sent w + sent
    /\ tallies w' = tallies w.
Proof.
  unfold generate_and_send.
  destruct (ppt_file inp) as [template|]; [|discriminate].
  destruct (csv_file inp) as [df|]; [|discriminate].
  destruct (all_fields inp); [|discriminate].
  destruct (batch_loop _ _ _ _ _ _ _ _) as [s3 w3|k3 e3 s3 w3|w3] eqn:B;
    [discriminate| |discriminate].
  intros [= <- <- <- <-].
  apply batch_loop_aborted in B as (pre & data & post & w1 & Hdf & Hk & Hpre & Hraise).
  pose proof (batch_loop_finished_tallies _ _ _ _ _ _ _ _ _ _ Hpre) as HT.
  apply batch_loop_finished in Hpre as (H1 & _ & _ & H4 & H5 & _).
  pose proof (process_row_raise_attempts _ _ _ _ _ _ _ _ _ _ Hraise) as [_ RT].
  apply process_row_raise in Hraise as (R1 & R2 & _).
  pose proof (filter_length_le (has_recipient inp) pre) as Hle.
  exists df. subst df k3. rewrite length_app. cbn [length Nat.add] in *.
  rewrite take_app_length.
  unfold rows_processed, emails_sent, tallies in *.
  cbn [cleanup trace write_deck mkdir set_folder] in *.
  repeat split; try reflexivity; try lia; congruence.
Qed.

(** A recipient called "A/B" in the second row: the deck would go below
    [tmp/A], which is not there, and the save raises. *)
Lemma aborted_handler_demo :
  let inp := Inputs "Tech Fest" (Some name_deck) (Some [ada_row; slash_row; cy_row])
                    "team@example.com" "app-password" "EMAIL" in
  let out := generate_and_send (refusing_save "tmp/A/B.pptx") inp "tmp" (World ∅ ∅ 0 []) in
  abort_of out = Some (1, FileNotFoundError "tmp/A/B.pptx")
  /\ rows_processed (world_of out) = 1
  /\ emails_sent (world_of out) = 1
  /\ sent_to (world_of out) = ["ada@example.com"]
  /\ tallies (world_of out) = [].
Proof.
  cbv zeta.
  edestruct (aborted_handler_accounts_for_rows_before (refusing_save "tmp/A/B.pptx")
               (Inputs "Tech Fest" (Some name_deck) (Some [ada_row; slash_row; cy_row])
                       "team@example.com" "app-password" "EMAIL")
               "tmp" (World ∅ ∅ 0 []) 1 (FileNotFoundError "tmp/A/B.pptx") 1)
    as (df & _ & _ & _ & _ & H1 & H2 & H3); [vm_compute; reflexivity|].
  split; [vm_compute; reflexivity|]. split; [exact H1|]. split; [exact H2|].
  split; [vm_compute; reflexivity | exact H3].
Defined.

(** X8: no retry. However the loop ends, it has offered the SMTP server at
    most one message for each row of the roster. *)
Theorem at_most_one_attempt_per_row (svc : services) (inp : inputs)
    (tmpdir : string) (total idx : nat) (rows : list row) (sent : nat) (w : world) :
  send_attempts (world_of (batch_loop svc inp tmpdir total idx rows sent w))
  <= send_attempts w + length rows.
Proof.
  destruct (batch_loop _ _ _ _ _ _ _ _) as [s1 w1|k e s1 w1|w1] eqn:B.
  - apply batch_loop_finished in B as (_ & _ & _ & _ & _ & H6).
    pose proof (filter_length_le (has_recipient inp) rows). cbn [world_of]. lia.
  - apply batch_loop_aborted in B as (pre & data & post & w2 & -> & _ & Hpre & Hraise).
    apply batch_loop_finished in Hpre as (_ & _ & _ & _ & _ & H6).
    apply process_row_raise_attempts in Hraise as [Hraise _].
    pose proof (filter_length_le (has_recipient inp) pre).
    cbn [world_of]. rewrite length_app. cbn [length]. lia.
  - now apply batch_loop_not_stopped in B.
Qed.

(** X9: the guard. The handler does nothing, leaving the world as it is,
    exactly when the event name, the sender address or the password is empty
    or one of the two files was not uploaded; the recipient column name is
    not among the required fields. *)
Theorem handler_stops_iff_field_missing (svc : services) (inp : inputs)
    (tmpdir : string) (w : world) :
  let missing :=
    event_name inp = "" \/ ppt_file inp = None \/ csv_file inp = None
    \/ sender_email inp = "" \/ sender_password inp = "" in
  (missing -> generate_and_send svc inp tmpdir w = Stopped w)
  /\ (forall w', generate_and_send svc inp tmpdir w = Stopped w' -> missing /\ w' = w).
Proof.
  cbv zeta. unfold generate_and_send, all_fields.
  destruct (ppt_file inp) as [template|] eqn:Hp, (csv_file inp) as [df|] eqn:Hc;
    destruct (String.eqb_spec (event_name inp) "") as [He|He];
    destruct (String.eqb_spec (sender_email inp) "") as [Hs|Hs];
    destruct (String.eqb_spec (sender_password inp) "") as [Hw|Hw];
    cbn [negb andb];
    rewrite ?bool_decide_eq_true_2 by (now eexists); cbn [andb];
    try (split; [reflexivity | intros w' [= <-]; split; [tauto | reflexivity]]).
  destruct (batch_loop _ _ _ _ _ _ _ _) as [s3 w3|k3 e3 s3 w3|w3] eqn:B.
  - split; [intros [?|[?|[?|[?|?]]]]; congruence | discriminate].
  - split; [intros [?|[?|[?|[?|?]]]]; congruence | discriminate].
  - now apply batch_loop_not_stopped in B.
Qed.

(** ** The three functions on their own *)

(** X10: a call of [fill_ppt] that returns has read the template, written
    the template filled from the row at its output path and nothing else:
    every other deck, the template included when it is not the output path,
    every image folder and the message ids stay as they were. *)
Theorem fill_ppt_writes_only_output (svc : services) (tp out : string) (data : row)
    (w w' : world) :
  fill_ppt svc tp out data w = Ok tt w' ->
  exists template,
    decks w !! tp = Some template
    /\ decks w' !! out = Some (fill_presentation data template)
    /\ (forall path, path <> out -> decks w' !! path = decks w !! path)
    /\ folders w' = folders w
    /\ msgids w' = msgids w
    /\ trace w' = EvSaved out (fill_presentation data template) :: trace w.
Proof.
  intros F. apply fill_ppt_inv in F as (prs & Hprs & _ & ->).
  exists prs. cbn [log write_deck decks folders msgids trace].
  repeat split; [exact Hprs | apply lookup_insert_eq |].
  intros path Hne. now apply lookup_insert_ne.
Qed.

Lemma fill_ppt_writes_only_output_demo :
  exists w' template,
    fill_ppt accepting "tmp/template.pptx" "tmp/Ada.pptx" ada_row
             (start_world "tmp" name_deck) = Ok tt w'
    /\ decks (start_world "tmp" name_deck) !! "tmp/template.pptx" = Some template
    /\ decks w' !! "tmp/Ada.pptx" = Some (fill_presentation ada_row template)
    /\ decks w' !! "tmp/Ada.pptx" = Some (one_run_deck "bold" "Awarded to Ada")
    /\ decks w' !! "tmp/template.pptx" = Some name_deck.
Proof.
  eexists.
  edestruct (fill_ppt_writes_only_output accepting "tmp/template.pptx" "tmp/Ada.pptx"
               ada_row (start_world "tmp" name_deck))
    as (template & Ht & Hout & Hother & _); [vm_compute; reflexivity|].
  exists template. split; [reflexivity|]. split; [exact Ht|]. split; [exact Hout|].
  split; [vm_compute; reflexivity|].
  rewrite Hother by discriminate. reflexivity.
Defined.

(** X11: a render that fails for want of the deck leaves the output folder
    behind. The folder is made before the source file is looked for, so
    when [ppt_to_images] raises the FileNotFoundError of its source path
    the deck was not there and the folder exists, holding what it held
    before (nothing, if it is new); the decks, the other folders and the
    trace are untouched. *)
Theorem failed_render_leaves_folder (svc : services) (src folder : string)
    (w w' : world) :
  ppt_to_images svc src folder w = Raise (FileNotFoundError src) w' ->
  decks w !! src = None
  /\ folders w' !! folder = Some (folder_images folder w)
  /\ (forall other, other <> folder -> folders w' !! other = folders w !! other)
  /\ decks w' = decks w
  /\ trace w' = trace w.
Proof.
  intros H.
  apply ppt_to_images_inv in H as [(Hnone & _ & ->)|(prs & _ & _ & [=] & _)].
  cbn [mkdir set_folder folders decks trace]. repeat split; [exact Hnone | |].
  - apply lookup_insert_eq.
  - intros other Hne. now apply lookup_insert_ne.
Qed.

Lemma failed_render_leaves_folder_demo :
  ppt_to_images accepting "tmp/none.pptx" "output/x" (start_world "tmp" name_deck)
  = Raise (FileNotFoundError "tmp/none.pptx")
          (mkdir "output/x" (start_world "tmp" name_deck))
  /\ decks (start_world "tmp" name_deck) !! "tmp/none.pptx" = None
  /\ folders (mkdir "output/x" (start_world "tmp" name_deck)) !! "output/x" = Some []
  /\ decks (mkdir "output/x" (start_world "tmp" name_deck))
     = decks (start_world "tmp" name_deck)
  /\ trace (mkdir "output/x" (start_world "tmp" name_deck))
     = trace (start_world "tmp" name_deck).
Proof.
  split; [reflexivity|].
  destruct (failed_render_leaves_folder accepting "tmp/none.pptx" "output/x"
              (start_world "tmp" name_deck)
              (mkdir "output/x" (start_world "tmp" name_deck)) eq_refl)
    as (H1 & H2 & _ & H4 & H5).
  split; [exact H1|]. split; [exact H2|]. split; [exact H4 | exact H5].
Defined.


Section MessageFacts.





End MessageFacts.






(** ** The preview *)

Section PreviewFacts.

Lemma in_dir_join (dir leaf : string) : in_dir dir (path_join dir leaf) = true.
Proof. unfold in_dir, path_join. rewrite <- app_assoc_s. apply prefix_app. Qed.

Lemma select_row_first (svc : services) (selected : string) (df : list row) :
  selected ∈ name_options svc df ->
  exists pre data post,
    df = (pre ++ data :: post)%list
    /\ select_row svc selected df = Some data
    /\ row_name svc data = Some selected
    /\ Forall (fun d => row_name svc d <> Some selected) pre.
Proof.
  unfold name_options, select_row. intros H.
  apply list_elem_of_omap in H as (d' & Hin & Hd').
  induction df as [|d df IH]; [now apply elem_of_nil in Hin|].
  cbn [List.find].
  destruct (row_name svc d) as [n|] eqn:Hn.
  - destruct (String.eqb_spec n selected) as [->|Hne].
    + exists [], d, df. repeat split; [assumption | constructor].
    + apply elem_of_cons in Hin as [->|Hin]; [congruence|].
      destruct (IH Hin) as (pre & data & post & -> & Hf & Hd & Hpre).
      exists (d :: pre), data, post. repeat split; try assumption.
      constructor; [congruence | assumption].
  - apply elem_of_cons in Hin as [->|Hin]; [congruence|].
    destruct (IH Hin) as (pre & data & post & -> & Hf & Hd & Hpre).
    exists (d :: pre), data, post. repeat split; try assumption.
    constructor; [congruence | assumption].
Qed.

(** What is removed on leaving the temporary directory is all that was
    written, when nothing was there before. *)
Lemma cleanup_tmp_restores (tmp : string) (w w' : world) :
  fresh_dir tmp w -> same_outside tmp w w' ->
  decks (cleanup_tmp tmp w') = decks w /\ folders (cleanup_tmp tmp w') = folders w.
Proof.
  intros Hfresh Hsame. cbn [cleanup_tmp decks folders].
  split; apply map_eq; intros path; apply option_eq; intros x;
    rewrite map_lookup_filter_Some; cbn [fst];
    destruct (in_dir tmp path) eqn:E.
  - destruct (Hfresh path E) as [-> _]. split; [intros [_ ?] | intros ?]; discriminate.
  - destruct (Hsame path E) as [-> _]. tauto.
  - destruct (Hfresh path E) as [_ ->]. split; [intros [_ ?] | intros ?]; discriminate.
  - destruct (Hsame path E) as [_ ->]. tauto.
Qed.

Lemma in_dir_ne (dir leaf path : string) :
  in_dir dir path = false -> path_join dir leaf <> path.
Proof. intros H <-. rewrite in_dir_join in H. discriminate. Qed.

(** The pipeline of the preview writes below the temporary directory only. *)
Lemma preview_pipeline_outside (svc : services) (tmp : string) (data : row)
    (uploaded : presentation) (w : world) :
  same_outside tmp w
    (match (do! fill_ppt svc (path_join tmp "template.pptx")
                  (path_join tmp "preview.pptx") data in
            do! ppt_to_images svc (path_join tmp "preview.pptx") (path_join tmp "images") in
            glob (path_join tmp "images"))
             (write_deck (path_join tmp "template.pptx") uploaded w) with
     | Ok _ w' => w'
     | Raise _ w' => w'
     end).
Proof.
  unfold bind, glob.
  destruct (fill_ppt _ _ _ _ _) as [u w1|e w1] eqn:F; apply fill_ppt_inv in F.
  - destruct F as (prs & _ & _ & ->).
    destruct (ppt_to_images _ _ _ _) as [u2 w2|e2 w2] eqn:P; apply ppt_to_images_inv in P.
    + destruct P as (filled & imgs & _ & _ & ->). intros path E.
      cbn [log save_as mkdir set_folder write_deck decks folders].
      rewrite !lookup_insert_ne by now apply in_dir_ne. easy.
    + destruct P as [(_ & _ & ->)|(filled & _ & _ & _ & ->)]; intros path E;
        cbn [log save_as mkdir set_folder write_deck decks folders].
      * rewrite !lookup_insert_ne by now apply in_dir_ne. easy.
      * rewrite !lookup_insert_ne by now apply in_dir_ne. easy.
  - destruct F as (-> & _). intros path E. cbn [write_deck decks folders].
    rewrite !lookup_insert_ne by now apply in_dir_ne. easy.
Qed.

(** A folder that was not there holds, once rendered into, the rendered
    images and no other. *)
Lemma rendered_folder_fresh (folder : string) (imgs : list png) (ev : event) (w : world) :
  folders w !! folder = None ->
  folder_images folder (log ev (save_as folder imgs (mkdir folder w))) = imgs.
Proof.
  intros Hf. unfold folder_images, save_as, mkdir, set_folder, folder_images.
  cbn [folders log]. rewrite !lookup_insert_eq, Hf. cbn [default id].
  now rewrite drop_nil, app_nil_r.
Qed.

Lemma read_image_folder (folder : string) (i : nat) (w : world) :
  read_image (folder, i) w = folder_images folder w !! i.
Proof.
  unfold read_image, folder_images. cbn [fst snd].
  now destruct (folders w !! folder).
Qed.

End PreviewFacts.

(** X14: the preview is the certificate of the first row of the chosen name.
    For a name among the texts of the options and a fresh temporary
    directory, the deck saved for the preview is the uploaded template
    filled with the first roster row whose NAME reads as the chosen name (a
    later row of the same name cannot be previewed); when PowerPoint
    renders that deck, what is shown is one of the images it made of it,
    captioned "Preview for <name>", and nothing if it made none. *)
Theorem preview_shows_first_row_of_name (svc : services) (inp : inputs)
    (selected tmp : string) (w : world) (df : list row) (uploaded : presentation)
    (imgs : list png) :
  csv_file inp = Some df -> ppt_file inp = Some uploaded ->
  has_name_column df = true -> selected ∈ name_options svc df -> fresh_dir tmp w ->
  exists pre data post,
    df = (pre ++ data :: post)%list
    /\ row_name svc data = Some selected
    /\ Forall (fun d => row_name svc d <> Some selected) pre
    /\ saved_decks (preview_world (generate_preview svc inp selected tmp w))
       = (path_join tmp "preview.pptx", fill_presentation data uploaded) :: saved_decks w
    /\ (powerpoint svc (path_join tmp "preview.pptx") (fill_presentation data uploaded)
        = Some imgs ->
        match imgs with
        | [] => exists w', generate_preview svc inp selected tmp w = PreviewNothing w'
        | _ :: _ =>
            exists img w',
              img ∈ imgs
              /\ generate_preview svc inp selected tmp w
                 = PreviewImage img ("Preview for " +:+ selected) w'
        end).
Proof.
  intros Hc Hp Hn Hsel Hfresh.
  destruct (select_row_first svc selected df Hsel)
    as (pre & data & post & Hdf & Hfind & Hname & Hpre).
  exists pre, data, post. do 3 (split; [assumption|]).
  destruct (Hfresh _ (in_dir_join tmp "images")) as [_ Hf].
  assert (folders (write_deck (path_join tmp "preview.pptx")
                     (fill_presentation data uploaded)
                     (write_deck (path_join tmp "template.pptx") uploaded w))
          !! path_join tmp "images" = None) as Hf1 by exact Hf.
  unfold generate_preview. rewrite Hc, Hp, Hn, Hfind. cbv zeta. unfold bind, glob.
  rewrite (fill_ppt_ok svc _ _ _ _ uploaded)
    by (try (apply save_error_beside; reflexivity);
        cbn [write_deck decks]; apply lookup_insert_eq).
  destruct (ppt_to_images _ _ _ _) as [u2 w2|e2 w2] eqn:P;
    apply ppt_to_images_inv in P.
  - destruct P as (filled & imgs' & Hfilled & Hp' & ->).
    cbn [log write_deck decks] in Hfilled. rewrite lookup_insert_eq in Hfilled.
    injection Hfilled as <-.
    split.
    { destruct (glob_png _ _) as [|first others]; [reflexivity|].
      destruct (read_image first _); reflexivity. }
    intros Himgs. rewrite Hp' in Himgs. injection Himgs as ->.
    unfold glob_png. rewrite rendered_folder_fresh by exact Hf1.
    destruct imgs as [|img rest]; cbn [length seq map]; [now eexists|].
    rewrite read_image_folder, rendered_folder_fresh by exact Hf1.
    exists img. eexists. split; [apply list_elem_of_here | reflexivity].
  - assert (trace w2
            = EvSaved (path_join tmp "preview.pptx") (fill_presentation data uploaded)
                :: trace w) as Ht.
    { destruct P as [(_ & _ & ->)|(filled & _ & _ & _ & ->)]; reflexivity. }
    split.
    + unfold saved_decks. cbn [preview_world cleanup_tmp trace]. now rewrite Ht.
    + intros Himgs. exfalso.
      destruct P as [(Hnone & _)|(filled & Hfilled & Hnone & _)];
        cbn [log write_deck decks] in *; rewrite lookup_insert_eq in *;
        [discriminate|]. injection Hfilled as <-. congruence.
Qed.

Lemma preview_of_second_ada :
  exists pre data post,
    ada_twice = (pre ++ data :: post)%list
    /\ row_name accepting data = Some "Ada"
    /\ Forall (fun d => row_name accepting d <> Some "Ada") pre
    /\ saved_decks
         (preview_world
            (generate_preview accepting
               (Inputs "Tech Fest" (Some name_deck) (Some ada_twice) "" "" "EMAIL")
               "Ada" "tmp" (World ∅ ∅ 0 [])))
       = [("tmp/preview.pptx", fill_presentation data name_deck)]
    /\ dict_get "EMAIL" data = Some (CStr "first@example.com")
    /\ exists img w',
         img ∈ ["PNG"]
         /\ generate_preview accepting
              (Inputs "Tech Fest" (Some name_deck) (Some ada_twice) "" "" "EMAIL")
              "Ada" "tmp" (World ∅ ∅ 0 [])
            = PreviewImage img "Preview for Ada" w'.
Proof.
  edestruct (preview_shows_first_row_of_name accepting
               (Inputs "Tech Fest" (Some name_deck) (Some ada_twice) "" "" "EMAIL")
               "Ada" "tmp" (World ∅ ∅ 0 []) ada_twice name_deck ["PNG"]
               eq_refl eq_refl eq_refl)
    as (pre & data & post & Hdf & Hname & Hpre & Hsaved & Hshown).
  - apply list_elem_of_further, list_elem_of_here.
  - intros path _. split; apply lookup_empty.
  - unfold ada_twice in Hdf. destruct pre as [|d0 [|d1 pre]]; cbn [app] in Hdf.
    + injection Hdf as <- _. discriminate.
    + injection Hdf as <- <- <-. eexists [bob_row], _, _.
      split; [reflexivity|]. split; [exact Hname|]. split; [exact Hpre|].
      split; [exact Hsaved|]. split; [reflexivity|]. apply Hshown. reflexivity.
    + exfalso. injection Hdf as _ <- _. inversion Hpre as [|? ? _ Hrest].
      inversion Hrest as [|? ? Hn _]. now apply Hn.
Defined.

(** X15: a preview leaves no file behind. In a fresh temporary directory,
    however the click ends (image, nothing, IndexError, exception), the decks
    and image folders after it are those before it: the template copy, the
    preview deck and the rendered images are gone with the directory. *)
Theorem preview_leaves_no_file (svc : services) (inp : inputs)
    (selected tmp : string) (w : world) :
  fresh_dir tmp w ->
  decks (preview_world (generate_preview svc inp selected tmp w)) = decks w
  /\ folders (preview_world (generate_preview svc inp selected tmp w)) = folders w.
Proof.
  intros Hfresh. unfold generate_preview.
  destruct (csv_file inp) as [df|]; [|easy].
  destruct (ppt_file inp) as [uploaded|]; [|easy].
  destruct (has_name_column df); [|easy].
  destruct (select_row svc selected df) as [data|]; [|easy].
  cbv zeta.
  pose proof (preview_pipeline_outside svc tmp data uploaded w) as Hout.
  destruct ((do! fill_ppt _ _ _ _ in do! ppt_to_images _ _ _ in glob _) _)
    as [images w'|e w'].
  - destruct images as [|first others]; [now apply cleanup_tmp_restores|].
    destruct (read_image first w'); now apply cleanup_tmp_restores.
  - now apply cleanup_tmp_restores.
Qed.

Lemma preview_leaves_no_file_demo :
  decks (preview_world (generate_preview accepting demo_inputs "Bob" "tmp" (World ∅ ∅ 0 [])))
  = decks (World ∅ ∅ 0 [])
  /\ folders (preview_world (generate_preview accepting demo_inputs "Bob" "tmp"
                               (World ∅ ∅ 0 [])))
     = folders (World ∅ ∅ 0 []).
Proof.
  refine (preview_leaves_no_file accepting demo_inputs "Bob" "tmp" (World ∅ ∅ 0 []) _).
  intros path _. split; apply lookup_empty.
Defined.


(** ** Rows and their certificates *)

Section CertificateFacts.

Lemma app_inj_r (a b c : string) : a +:+ c = b +:+ c -> a = b.
Proof.
  revert b. induction a as [|x a IH]; intros [|y b] H.
  - reflexivity.
  - apply (f_equal String.length) in H. rewrite app_nil_l_s, length_app_s in H.
    cbn [String.length] in H. lia.
  - apply (f_equal String.length) in H. rewrite app_nil_l_s, length_app_s in H.
    cbn [String.length] in H. lia.
  - rewrite !app_cons in H. injection H as -> H. f_equal. now apply IH.
Qed.

(** Only the display name "template" puts a deck at the path of the
    template. *)
Lemma temp_ppt_template (tmpdir : string) (idx : nat) (data : row) :
  temp_ppt tmpdir idx data = template_path tmpdir -> display_name idx data = "template".
Proof.
  unfold temp_ppt, template_path, path_join. intros H.
  apply String.app_inj in H. apply String.app_inj in H.
  now apply (app_inj_r _ "template" ".pptx") in H.
Qed.

Lemma row_decks_no_template (tmpdir : string) (idx : nat) (rows : list row) :
  (forall i data, data ∈ rows -> display_name i data <> "template") ->
  template_path tmpdir ∉ row_decks tmpdir idx rows.
Proof.
  revert idx. induction rows as [|data rows IH]; intros idx H Hin.
  - now apply elem_of_nil in Hin.
  - cbn [row_decks] in Hin. apply elem_of_cons in Hin as [Heq|Hin].
    + symmetry in Heq. apply temp_ppt_template in Heq.
      apply (H idx data); [apply list_elem_of_here | exact Heq].
    + apply (IH (S idx)); [|exact Hin].
      intros i d Hd. apply H. now apply list_elem_of_further.
Qed.

End CertificateFacts.

(** X16: when every recipient's display name is a plain file name (letters,
    digits, "_", "-" and ".", the first character a letter, a digit or "_")
    other than "template" in any letter case, the rows do not interfere:
    in a loop that runs to its end every row's deck is the uploaded
    template filled with that row's own values, saved in roster order, and
    the template is still the uploaded one when the loop ends. *)
Theorem rows_are_filled_from_the_upload (svc : services) (inp : inputs)
    (tmpdir : string) (total idx : nat) (rows : list row) (sent : nat) (w : world)
    (template : presentation) (sent' : nat) (w' : world) :
  decks w !! template_path tmpdir = Some template ->
  (forall i data, data ∈ rows ->
     legal_leaf (display_name i data) = true
     /\ lower (display_name i data) <> "template") ->
  batch_loop svc inp tmpdir total idx rows sent w = Finished sent' w' ->
  decks w' !! template_path tmpdir = Some template
  /\ saved_decks w' = (rev (row_fills tmpdir template idx rows) ++ saved_decks w)%list.
Proof.
  intros Htpl Hnames Hb.
  apply (batch_loop_shares_template svc inp tmpdir total idx rows sent w template sent' w');
    try assumption.
  apply row_decks_no_template. intros i data Hin Heq.
  destruct (Hnames i data Hin) as [_ Hne]. apply Hne. now rewrite Heq.
Qed.

Lemma rows_are_filled_from_the_upload_demo :
  decks (world_of (batch_loop accepting demo_inputs "tmp" 2 0 [bob_row; ada_row] 0
                     (start_world "tmp" name_deck)))
    !! template_path "tmp" = Some name_deck
  /\ saved_decks (world_of (batch_loop accepting demo_inputs "tmp" 2 0 [bob_row; ada_row] 0
                              (start_world "tmp" name_deck)))
     = [("tmp/Ada.pptx", one_run_deck "bold" "Awarded to Ada");
        ("tmp/Bob.pptx", one_run_deck "bold" "Awarded to Bob")].
Proof.
  refine (rows_are_filled_from_the_upload accepting demo_inputs "tmp" 2 0
            [bob_row; ada_row] 0 (start_world "tmp" name_deck) name_deck 2 _ eq_refl _ _).
  - intros i data Hin. apply list_elem_of_In in Hin.
    destruct Hin as [<-|[<-|[]]]; (split; [vm_compute; reflexivity | vm_compute; discriminate]).
  - vm_compute. reflexivity.
Defined.

(** X17: each recipient is sent a slide of their own certificate. When the
    turn of a row with a recipient ends well and the row's output folder
    was not there before, the message the server took is addressed to the
    text of the row's recipient value and carries inline, named
    [<event_name>.png], one of the images PowerPoint made of the template
    filled from this row, or no image if PowerPoint made none. *)
Theorem row_is_sent_a_slide_of_its_own_deck (svc : services) (inp : inputs)
    (tmpdir : string) (total idx : nat) (data : row) (sent : nat) (w : world)
    (sent' : nat) (w' : world) :
  has_recipient inp data = true ->
  folders w !! person_out inp idx data = None ->
  process_row svc inp tmpdir total idx data sent w = Ok sent' w' ->
  exists template imgs msg w1,
    decks w !! template_path tmpdir = Some template
    /\ powerpoint svc (temp_ppt tmpdir idx data) (fill_presentation data template)
       = Some imgs
    /\ sent' = S sent
    /\ w' = log (EvProgress (idx + 1) total) (log (EvSmtp msg true) w1)
    /\ sent_to w' = py_str_opt (dict_get (email_column inp) data) :: sent_to w
    /\ msg_to msg = py_str_opt (dict_get (email_column inp) data)
    /\ match imgs with
       | [] => msg_inline msg = None
       | _ :: _ =>
           exists img,
             img ∈ imgs
             /\ msg_inline msg
                = Some (InlineImage img (make_msgid svc (msgids w))
                                    (event_name inp +:+ ".png"))
       end.
Proof.
  intros Hrec Hfresh H.
  pose proof (process_row_ok_sent_to _ _ _ _ _ _ _ _ _ _ H) as Hsent.
  rewrite Hrec in Hsent. cbn [app] in Hsent.
  rewrite process_row_stages in H.
  destruct (fill_ppt _ _ _ _ _) as [u w1|e w1] eqn:F; [|discriminate].
  apply fill_ppt_inv in F as (template & Htpl & _ & ->).
  destruct (ppt_to_images _ _ _ _) as [u2 w2|e w2] eqn:P; [|discriminate].
  apply ppt_to_images_inv in P as (filled & imgs & Hfilled & Hpp & ->).
  cbn [log write_deck decks] in Hfilled. rewrite lookup_insert_eq in Hfilled.
  injection Hfilled as <-.
  exists template, imgs.
  unfold has_recipient in Hrec. unfold dispatch in H.
  destruct (dict_get (email_column inp) data) as [r|] eqn:Hr; [|discriminate].
  rewrite Hrec in H. unfold bind, send_email, deliver, ret in H.
  unfold glob_png in H. rewrite rendered_folder_fresh in H by exact Hfresh.
  destruct imgs as [|img rest]; cbn [length seq map] in H.
  - destruct (smtp_accepts _ _ _ _) eqn:A; [|discriminate]. injection H as <- <-.
    eexists _, _. repeat split; try eassumption; reflexivity.
  - rewrite read_image_folder in H.
    match type of H with context [folder_images ?f (next_msgid ?x)] =>
      change (folder_images f (next_msgid x)) with (folder_images f x) in H
    end.
    rewrite rendered_folder_fresh in H by exact Hfresh. cbn [lookup list_lookup] in H.
    destruct (smtp_accepts _ _ _ _) eqn:A; [|discriminate]. injection H as <- <-.
    eexists _, _. repeat split; try eassumption; try reflexivity.
    exists img. split; [apply list_elem_of_here | reflexivity].
Qed.

Lemma row_is_sent_a_slide_of_its_own_deck_demo :
  exists msg w1,
    process_row accepting demo_inputs "tmp" 3 0 ada_row 0 (start_world "tmp" name_deck)
    = Ok 1 (log (EvProgress 1 3) (log (EvSmtp msg true) w1))
    /\ msg_to msg = "ada@example.com"
    /\ msg_inline msg = Some (InlineImage "PNG" "<0@host>" "Tech Fest.png").
Proof.
  edestruct (row_is_sent_a_slide_of_its_own_deck accepting demo_inputs "tmp" 3 0 ada_row 0
               (start_world "tmp" name_deck))
    as (template & imgs & msg & w1 & Ht & Hp & _ & Hw & _ & Hto & Himg);
    [reflexivity | apply lookup_empty | vm_compute; reflexivity |].
  exists msg, w1. cbn [Nat.add] in Hw. split; [rewrite <- Hw; vm_compute; reflexivity|].
  split; [exact Hto|].
  injection Ht as <-. injection Hp as <-.
  destruct Himg as (img & Hin & Himg). apply list_elem_of_In in Hin.
  destruct Hin as [<-|[]]. exact Himg.
Defined.

(** X18: the rows the loop skips are exactly those whose recipient value is
    missing, the empty text, the number 0 (integer or float) or False (NaN
    is not among them); when the turn of a skipped row ends well, the row
    is filled, rendered and counted as processed like any other, and no
    message is offered for it. *)
Theorem skipped_rows_are_still_processed (svc : services) (inp : inputs)
    (tmpdir : string) (total idx : nat) (data : row) (sent : nat) (w : world) :
  (has_recipient inp data = false
   <-> dict_get (email_column inp) data = None
       \/ dict_get (email_column inp) data = Some (CStr "")
       \/ dict_get (email_column inp) data = Some (CInt 0)
       \/ (exists text, dict_get (email_column inp) data = Some (CFloat text true))
       \/ dict_get (email_column inp) data = Some (CBool false))
  /\ (has_recipient inp data = false ->
      forall sent' w',
        process_row svc inp tmpdir total idx data sent w = Ok sent' w' ->
        sent' = sent
        /\ send_attempts w' = send_attempts w
        /\ rows_processed w' = S (rows_processed w)
        /\ saved_paths w' = temp_ppt tmpdir idx data :: saved_paths w
        /\ rendered_folders w' = person_out inp idx data :: rendered_folders w
        /\ row_filled_and_rendered svc inp tmpdir idx data w w').
Proof.
  split.
  - unfold has_recipient.
    destruct (dict_get (email_column inp) data) as [[s|z| |t [|]|[|]]|]; cbn [truthy negb].
    + destruct (String.eqb_spec s ""); cbn; split; try tauto; try discriminate.
      * intros _. right. left. congruence.
      * intros [?|[[= ?]|[?|[[? ?]|?]]]]; congruence.
    + destruct (Z.eqb_spec z 0); cbn; split; try tauto; try discriminate.
      * intros _. do 2 right. left. congruence.
      * intros [?|[?|[[= ?]|[[? ?]|?]]]]; congruence.
    + split; [discriminate | intros [?|[?|[?|[[? ?]|?]]]]; discriminate].
    + split; [intros _; do 3 right; left; now exists t | reflexivity].
    + split; [discriminate | intros [?|[?|[?|[[? ?]|?]]]]; discriminate].
    + split; [discriminate | intros [?|[?|[?|[[? ?]|?]]]]; discriminate].
    + split; [intros _; do 4 right; reflexivity | reflexivity].
    + tauto.
  - intros Hno sent' w' H.
    pose proof (process_row_ok_content _ _ _ _ _ _ _ _ _ _ H) as Hc.
    apply process_row_ok_readings in H as (H1 & H2 & H3 & H4 & _ & H6 & _).
    rewrite Hno in *. cbn in *. repeat split; try assumption; lia.
Qed.

